(** * Al-Cu welding arXiv explorer: the query, download and report pipeline

    A shallow embedding of [alcu_welding_step1_query.py].  Python [str] values
    are [string]s (one [ascii] per character), Python [int]s are [Z], the
    list of paper dicts is a list of [PaperRecord]s, exceptions are explicit
    outcomes, and every Streamlit call, network request and sleep the script
    performs is an entry of an effect log. *)

From Stdlib Require Import List String Ascii ZArith NArith Bool Arith Lia.
From Stdlib Require Import Numbers.DecimalString.
Import ListNotations.
Local Open Scope string_scope.

(** ** Python string primitives used by the script *)

Module PyStr.

(** [str(n)] for an [int]. *)
Definition str_of_Z (z : Z) : string := NilZero.string_of_int (Z.to_int z).

Definition str_of_N (n : N) : string := NilZero.string_of_uint (N.to_uint n).

Definition str_of_nat (n : nat) : string := str_of_N (N.of_nat n).

(** [sep.join(parts)]. *)
Fixpoint join (sep : string) (parts : list string) : string :=
  match parts with
  | [] => EmptyString
  | [p] => p
  | p :: rest => p ++ sep ++ join sep rest
  end.

(** [s.split(sep)] for a one-character separator: never an empty list. *)
Fixpoint split (sep : ascii) (s : string) : list string :=
  match s with
  | EmptyString => [EmptyString]
  | String c rest =>
      if Ascii.eqb c sep then EmptyString :: split sep rest
      else match split sep rest with
           | [] => [String c EmptyString]
           | hd :: tl => String c hd :: tl
           end
  end.

(** [parts[-1]]; the default is never used on the result of [split]. *)
Definition last_item (parts : list string) : string := last parts EmptyString.

(** [s[:n]]. *)
Fixpoint take (n : nat) (s : string) : string :=
  match n, s with
  | S k, String c rest => String c (take k rest)
  | _, _ => EmptyString
  end.

(** Characters removed by [str.strip()] with no argument, restricted to the
    code points below 256: TAB..CR, FS..US, space, NEL and NBSP. *)
Definition isspace (c : ascii) : bool :=
  let n := nat_of_ascii c in
  ((9 <=? n)%nat && (n <=? 13)%nat) || ((28 <=? n)%nat && (n <=? 32)%nat)
  || (n =? 133)%nat || (n =? 160)%nat.

Fixpoint lstrip (s : string) : string :=
  match s with
  | String c rest => if isspace c then lstrip rest else s
  | EmptyString => EmptyString
  end.

Fixpoint rstrip (s : string) : string :=
  match s with
  | EmptyString => EmptyString
  | String c rest =>
      match rstrip rest with
      | EmptyString => if isspace c then EmptyString else String c EmptyString
      | kept => String c kept
      end
  end.

Definition strip (s : string) : string := rstrip (lstrip s).

(** Truth value of a string: [bool(s)]. *)
Definition truthy (s : string) : bool :=
  match s with EmptyString => false | String _ _ => true end.

(** [s.startswith(p)]. *)
Fixpoint startswith (p s : string) : bool :=
  match p, s with
  | EmptyString, _ => true
  | String a p', String b s' => Ascii.eqb a b && startswith p' s'
  | String _ _, EmptyString => false
  end.

(** [needle in s] for two strings: substring search. *)
Fixpoint contains (needle s : string) : bool :=
  startswith needle s ||
  match s with
  | EmptyString => false
  | String _ rest => contains needle rest
  end.

(** Rounding of [num/2^10] to the nearest integer, ties to even: what the
    [.1f] conversion does to the exactly represented quotient of a byte
    count by 1024, once scaled by ten. *)
Definition round_half_even_1024 (num : N) : N :=
  let q := (num / 1024)%N in
  let r := (num mod 1024)%N in
  if (r <? 512)%N then q
  else if (512 <? r)%N then (q + 1)%N
  else if N.even q then q else (q + 1)%N.

(** [f"{bytes / 1024:.1f}"]. *)
Definition format_kb (bytes : N) : string :=
  let tenths := round_half_even_1024 (bytes * 10) in
  str_of_N (tenths / 10) ++ "." ++ str_of_N (tenths mod 10).

(** [all(p(c) for c in s)]. *)
Fixpoint all_chars (p : ascii -> bool) (s : string) : bool :=
  match s with
  | EmptyString => true
  | String c rest => p c && all_chars p rest
  end.

(** [c.isdigit()] on the ASCII digits. *)
Definition isdigit (c : ascii) : bool :=
  let n := nat_of_ascii c in ((48 <=? n)%nat && (n <=? 57)%nat).

End PyStr.

(** ** The arXiv client library, as the script uses it *)

Module arxiv.

(** The attributes of [arxiv.Result] that the script reads. *)
Record Result := {
  entry_id : string;
  title : string;
  published_year : Z;
  categories : list string;
  summary : string;
  pdf_url : option string
}.

Inductive SortCriterion := Relevance | LastUpdatedDate | SubmittedDate.
Inductive SortOrder := Ascending | Descending.

Record Search := {
  query : string;
  max_results : Z;
  sort_by : SortCriterion;
  sort_order : SortOrder
}.

(** One pull on the generator returned by [Client.results]: the next
    result, or an exception (network or feed-parsing failure) carrying its
    [str(e)].  A generator that runs out is the end of the list. *)
Inductive pull :=
| Yield (result : Result)
| Raise (message : string).

(** The remote service: for a query text, the pulls an unbounded listing
    would make, newest submission first. *)
Definition Remote := string -> list pull.

(** [Client().results(search)]: for the positive caps the script passes,
    the library stops the generator after [search.max_results] results. *)
Definition results (remote : Remote) (search : Search) : list pull :=
  firstn (Z.to_nat (max_results search)) (remote (query search)).

End arxiv.

(** ** The paper dicts built by [query_arxiv] *)

Module Paper.

Record PaperRecord := {
  id : string;
  title : string;
  year : Z;
  categories : string;
  abstract : string;
  pdf_url : option string;
  download_status : string
}.

(** [paper["download_status"] = status]. *)
Definition set_download_status (paper : PaperRecord) (status : string)
  : PaperRecord :=
  {| id := id paper; title := title paper; year := year paper;
     categories := categories paper; abstract := abstract paper;
     pdf_url := pdf_url paper; download_status := status |}.

End Paper.

Import PyStr.
Abbreviation PaperRecord := Paper.PaperRecord.

(** ** Effects of a run *)

Inductive effect :=
| st_error (message : string)
| st_warning (message : string)
| st_success (message : string)
| st_info (message : string)
| st_write (message : string)
| st_markdown (message : string)
| st_header (message : string)
| st_subheader (message : string)
| st_spinner (message : string)
| st_progress (numerator denominator : nat)
| st_dataframe (columns : list string) (rows : list (list string))
| st_download_button (label data file_name mime : string)
| client_results (search : arxiv.Search)
| urlretrieve (url path : string)
| time_sleep.

(** ** [query_arxiv] *)

(** The test of line 34: some requested category is among the result's
    categories, and the publication year lies in the inclusive range. *)
Definition accept (categories : list string) (start_year end_year : Z)
    (result : arxiv.Result) : bool :=
  existsb (fun cat => existsb (fun c => String.eqb c cat)
                              (arxiv.categories result)) categories
  && ((start_year <=? arxiv.published_year result)%Z
      && (arxiv.published_year result <=? end_year)%Z).

(** The abstract expression of line 40. *)
Definition abstract_of (summary : string) : string :=
  if (200 <? String.length summary)%nat then take 200 summary ++ "..."
  else summary.

(** The dict literal of lines 35-43. *)
Definition make_paper (result : arxiv.Result) : PaperRecord :=
  {| Paper.id := last_item (split "/" (arxiv.entry_id result));
     Paper.title := arxiv.title result;
     Paper.year := arxiv.published_year result;
     Paper.categories := join ", " (arxiv.categories result);
     Paper.abstract := abstract_of (arxiv.summary result);
     Paper.pdf_url := arxiv.pdf_url result;
     Paper.download_status := "Not downloaded" |}.

(** The [for] loop of lines 33-45 over the generator, with [papers] the
    list built so far: [inr] is the list at loop exit, [inl] the message of
    an exception that escaped the loop. *)
Fixpoint collect (categories : list string) (max_results start_year
    end_year : Z) (feed : list arxiv.pull) (papers : list PaperRecord)
    : string + list PaperRecord :=
  match feed with
  | [] => inr papers
  | arxiv.Raise e :: _ => inl e
  | arxiv.Yield result :: rest =>
      let papers' :=
        if accept categories start_year end_year result
        then (papers ++ [make_paper result])%list else papers in
      if (Z.of_nat (List.length papers') >=? max_results)%Z then inr papers'
      else collect categories max_results start_year end_year rest papers'
  end.

(** The [arxiv.Search] of lines 26-31. *)
Definition search_for (query : string) (max_results : Z) : arxiv.Search :=
  {| arxiv.query := query; arxiv.max_results := max_results;
     arxiv.sort_by := arxiv.SubmittedDate;
     arxiv.sort_order := arxiv.Descending |}.

Definition query_arxiv (remote : arxiv.Remote) (query : string)
    (categories : list string) (max_results start_year end_year : Z)
    : list PaperRecord * list effect :=
  let search := search_for query max_results in
  match collect categories max_results start_year end_year
                (arxiv.results remote search) [] with
  | inr papers => (papers, [client_results search])
  | inl e => ([], [client_results search;
                   st_error ("Error querying arXiv: " ++ e)])
  end.

(** ** [download_pdf] and the download loop *)

(** What [urlretrieve] followed by [os.path.getsize] comes to: the size in
    bytes of the stored file, or the [str(e)] of the exception raised. *)
Inductive fetch_outcome :=
| Stored (bytes : N)
| Raised (message : string).

(** The network and the disk during a run: the outcome of the retrieval
    made at a given loop index for a given URL and target path. *)
Definition Fetcher := nat -> string -> string -> fetch_outcome.

Definition pdf_dir : string := "pdfs".

(** [os.path.join(pdf_dir, name)] on a POSIX system. *)
Definition path_join (dir name : string) : string :=
  if startswith "/" name then name else dir ++ "/" ++ name.

Definition pdf_path (paper_id : string) : string :=
  path_join pdf_dir (paper_id ++ ".pdf").

(** The status string for the outcome of the [try] block. *)
Definition status_of (outcome : fetch_outcome) : string :=
  match outcome with
  | Stored bytes => "Downloaded (" ++ format_kb bytes ++ " KB)"
  | Raised message => "Failed: " ++ message
  end.

(** [download_pdf(pdf_url, paper_id)], with [retrieve] what the retrieval
    comes to at the time of the call. *)
Definition download_pdf (retrieve : string -> string -> fetch_outcome)
    (pdf_url paper_id : string) : string * list effect :=
  let path := pdf_path paper_id in
  (status_of (retrieve pdf_url path), [urlretrieve pdf_url path]).

(** The truth test [if paper["pdf_url"]]: a URL that is neither [None] nor
    the empty string. *)
Definition usable_url (url : option string) : option string :=
  match url with
  | Some u => if truthy u then Some u else None
  | None => None
  end.

(** The body of the loop of lines 159-166 for the paper at index [i]. *)
Definition download_step (fetch : Fetcher) (total i : nat)
    (paper : PaperRecord) : PaperRecord * list effect :=
  match usable_url (Paper.pdf_url paper) with
  | Some url =>
      let (status, log) := download_pdf (fetch i) url (Paper.id paper) in
      (Paper.set_download_status paper status,
       (log ++ [st_progress (S i) total; time_sleep])%list)
  | None =>
      (Paper.set_download_status paper "No PDF URL",
       [st_progress (S i) total; time_sleep])
  end.

(** The loop from index [i] on, over the papers not yet visited. *)
Fixpoint download_loop (fetch : Fetcher) (total i : nat)
    (papers : list PaperRecord) : list PaperRecord * list effect :=
  match papers with
  | [] => ([], [])
  | paper :: rest =>
      let (paper', log) := download_step fetch total i paper in
      let (rest', log') := download_loop fetch total (S i) rest in
      (paper' :: rest', (log ++ log')%list)
  end.

Definition download_all (fetch : Fetcher) (papers : list PaperRecord)
    : list PaperRecord * list effect :=
  download_loop fetch (List.length papers) 0 papers.

(** The list of dicts after the first [k] iterations of the loop. *)
Definition papers_after (fetch : Fetcher) (k : nat)
    (papers : list PaperRecord) : list PaperRecord :=
  (fst (download_loop fetch (List.length papers) 0 (firstn k papers))
   ++ skipn k papers)%list.

(** ** The data frame and its delimited-text export *)

Module pd.

Inductive cell :=
| Str (s : string)
| Int (z : Z)
| NoneValue.

Record DataFrame := {
  columns : list string;
  rows : list (list cell)
}.

Definition paper_keys : list string :=
  ["id"; "title"; "year"; "categories"; "abstract"; "pdf_url";
   "download_status"].

(** The values of a paper dict, in key order. *)
Definition paper_values (paper : PaperRecord) : list cell :=
  [Str (Paper.id paper); Str (Paper.title paper); Int (Paper.year paper);
   Str (Paper.categories paper); Str (Paper.abstract paper);
   match Paper.pdf_url paper with Some u => Str u | None => NoneValue end;
   Str (Paper.download_status paper)].

(** [pd.DataFrame(papers)] for a list of dicts that share their keys: the
    columns are the keys of the dicts, in insertion order; an empty list
    gives a frame with no column. *)
Definition from_papers (papers : list PaperRecord) : DataFrame :=
  match papers with
  | [] => {| columns := []; rows := [] |}
  | _ => {| columns := paper_keys; rows := map paper_values papers |}
  end.

Fixpoint index_of (name : string) (names : list string) : option nat :=
  match names with
  | [] => None
  | n :: rest =>
      if String.eqb n name then Some 0
      else option_map S (index_of name rest)
  end.

(** [df[[names]]]: the named columns, in the order asked for. *)
Definition select (names : list string) (df : DataFrame) : DataFrame :=
  {| columns := names;
     rows := map (fun row =>
                    map (fun name =>
                           match index_of name (columns df) with
                           | Some i => nth i row NoneValue
                           | None => NoneValue
                           end) names) (rows df) |}.

(** The text of a cell in the export: missing values are written empty. *)
Definition cell_text (c : cell) : string :=
  match c with
  | Str s => s
  | Int z => str_of_Z z
  | NoneValue => EmptyString
  end.

Definition comma : ascii := ","%char.
Definition dquote : ascii := "034"%char.
Definition LF : ascii := "010"%char.
Definition CR : ascii := "013"%char.

Fixpoint has_char (p : ascii -> bool) (s : string) : bool :=
  match s with
  | EmptyString => false
  | String c rest => p c || has_char p rest
  end.

Definition is_special (c : ascii) : bool :=
  Ascii.eqb c comma || Ascii.eqb c dquote || Ascii.eqb c LF
  || Ascii.eqb c CR.

Fixpoint double_quotes (s : string) : string :=
  match s with
  | EmptyString => EmptyString
  | String c rest =>
      if Ascii.eqb c dquote then String dquote (String dquote (double_quotes rest))
      else String c (double_quotes rest)
  end.

(** Minimal quoting, the default of [to_csv]: a field holding the
    separator, the quote character or a line break is enclosed in quotes,
    with its quote characters doubled. *)
Definition csv_field (s : string) : string :=
  if has_char is_special s
  then String dquote (double_quotes s ++ String dquote EmptyString)
  else s.

Definition csv_line (fields : list string) : string :=
  join (String comma EmptyString) (map csv_field fields)
  ++ String LF EmptyString.

(** [df.to_csv(index=False)]: the header line, then one line per row. *)
Definition to_csv (df : DataFrame) : string :=
  String.concat EmptyString
    (csv_line (columns df)
     :: map (fun row => csv_line (map cell_text row)) (rows df)).

End pd.

(** ** The search-button handler (lines 130-192) *)

Definition display_columns : list string :=
  ["id"; "title"; "year"; "categories"; "abstract"; "download_status"].

(** [sum(1 for p in papers if "Downloaded" in p["download_status"])]. *)
Fixpoint downloaded_count (papers : list PaperRecord) : nat :=
  match papers with
  | [] => 0
  | p :: rest =>
      (if contains "Downloaded" (Paper.download_status p) then 1 else 0)
      + downloaded_count rest
  end.

Definition suggestions : string :=
  "
            **Suggestions to find more papers:**
            - Broaden the query (e.g., try 'laser welding aluminum copper' or 'Al-Cu welding').
            - Add more categories (e.g., 'physics.optics' for laser-related papers).
            - Expand the year range (e.g., 2010–2025).
            - Increase the maximum number of papers.
            ".

(** The [else] branch of line 139, once [query_arxiv] has returned. *)
Definition report (fetch : Fetcher) (query : string)
    (categories : list string) (start_year end_year : Z)
    (papers : list PaperRecord) : list effect :=
  match papers with
  | [] =>
      [st_warning "No papers found matching your criteria.";
       st_markdown suggestions]
  | _ =>
      let (papers', log) := download_all fetch papers in
      let df := pd.from_papers papers' in
      let shown := pd.select display_columns df in
      let downloaded := downloaded_count papers' in
      ([st_success ("Found **" ++ str_of_nat (List.length papers)
                    ++ "** papers matching your query!");
        st_write ("Query: **" ++ query ++ "** | Categories: **"
                  ++ join ", " categories ++ "** | Years: **"
                  ++ str_of_Z start_year ++ "–" ++ str_of_Z end_year
                  ++ "**");
        st_subheader "Downloading PDFs";
        st_progress 0 1]
       ++ log
       ++ [st_subheader "Paper Details";
           st_dataframe (pd.columns shown)
                        (map (map pd.cell_text) (pd.rows shown));
           st_download_button "Download Paper Metadata CSV" (pd.to_csv df)
                              "alcu_papers_metadata.csv" "text/csv";
           st_write ("**Summary**: " ++ str_of_nat (List.length papers')
                     ++ " papers found, " ++ str_of_nat downloaded
                     ++ " PDFs downloaded successfully.")]
       ++ (if (downloaded <? List.length papers')%nat
           then [st_warning
                   "Some PDFs failed to download. Check 'download_status' for details."]
           else []))%list
  end.

(** The three checks of lines 133-138, in order: the message of the first
    one that fails. *)
Definition validate (query : string) (categories : list string)
    (start_year end_year : Z) : option string :=
  if negb (truthy (strip query)) then Some "Please enter a valid query."
  else match categories with
       | [] => Some "Please select at least one category."
       | _ :: _ =>
           if (start_year >? end_year)%Z
           then Some "Start year must be less than or equal to end year."
           else None
       end.

Definition on_search (remote : arxiv.Remote) (fetch : Fetcher)
    (query : string) (categories : list string)
    (max_results start_year end_year : Z) : list effect :=
  match validate query categories start_year end_year with
  | Some message => [st_error message]
  | None =>
      let (papers, log) :=
        query_arxiv remote query categories max_results start_year
                    end_year in
      (st_spinner "Querying arXiv..." :: log
       ++ report fetch query categories start_year end_year papers)%list
  end.

Definition main_content (search_button : bool) (remote : arxiv.Remote)
    (fetch : Fetcher) (query : string) (categories : list string)
    (max_results start_year end_year : Z) : list effect :=
  st_header "Search Results"
  :: (if search_button
      then on_search remote fetch query categories max_results start_year
                     end_year
      else [st_info
              "Use the sidebar to configure your search and click 'Search arXiv' to begin."]).

(** Whether a run reached the remote search. *)
Definition is_search (e : effect) : bool :=
  match e with client_results _ => true | _ => false end.

Definition is_error (e : effect) : bool :=
  match e with st_error _ => true | _ => false end.

(** ** Start-up: the PDF directory (lines 16-20) *)

(** What a name of the working directory refers to. *)
Inductive entry := Directory | RegularFile | DanglingLink.

(** The working directory: its entries, the first binding of a name being
    the current one, and whether the system lets the script create a new
    entry in it. *)
Record Disk := {
  entries : list (string * entry);
  creatable : bool
}.

Fixpoint lookup (name : string) (es : list (string * entry))
  : option entry :=
  match es with
  | [] => None
  | (n, e) :: rest => if String.eqb n name then Some e else lookup name rest
  end.

(** [os.path.exists(path)]: true of a directory and of a regular file,
    false of a missing name and of a link whose target is missing. *)
Definition path_exists (disk : Disk) (path : string) : bool :=
  match lookup path (entries disk) with
  | Some Directory | Some RegularFile => true
  | Some DanglingLink | None => false
  end.

(** [os.path.isdir(path)]. *)
Definition isdir (disk : Disk) (path : string) : bool :=
  match lookup path (entries disk) with
  | Some Directory => true
  | _ => false
  end.

Inductive OSError := FileExistsError | PermissionError.

(** [os.makedirs(path)] for a path of one component: it raises when the
    name is taken, whatever holds it, and when the entry cannot be
    created. *)
Definition makedirs (disk : Disk) (path : string) : OSError + Disk :=
  match lookup path (entries disk) with
  | Some _ => inl FileExistsError
  | None =>
      if creatable disk
      then inr {| entries := (path, Directory) :: entries disk;
                  creatable := creatable disk |}
      else inl PermissionError
  end.

(** Lines 17-20.  The call of [os.makedirs] is in no [try]: its exception
    ends the script, and the message of line 20 is not shown. *)
Definition ensure_pdf_dir (disk : Disk) : OSError + Disk * list effect :=
  if negb (path_exists disk pdf_dir)
  then match makedirs disk pdf_dir with
       | inr disk' =>
           inr (disk',
                [st_info ("Created directory: " ++ pdf_dir
                          ++ " for storing PDFs.")])
       | inl e => inl e
       end
  else inr (disk, []).

(** ** The query widgets of the sidebar (lines 66-85) *)

(** The three choices of the [st.radio] widget. *)
Inductive QueryOption := DefaultQuery | CustomQuery | SuggestedQueries.

Definition default_query : string :=
  "aluminum copper dissimilar welding process parameters".

Definition suggested_queries : list string :=
  ["laser welding aluminum copper";
   "Al-Cu dissimilar welding";
   "multimaterial welding Al-Cu";
   "laser welding process parameters"].

(** The query chosen in the sidebar, with [text_input] the content of the
    text field and [selected] the entry picked in the select box. *)
Definition sidebar_query (query_option : QueryOption)
    (text_input selected : string) : string * list effect :=
  match query_option with
  | DefaultQuery =>
      (default_query, [st_write ("Using default query: **" ++ default_query
                                 ++ "**")])
  | CustomQuery =>
      (text_input, [st_write ("Custom query: **" ++ text_input ++ "**")])
  | SuggestedQueries =>
      (selected, [st_write ("Selected query: **" ++ selected ++ "**")])
  end.

(** ** Reading an effect log *)

(** The retrievals of a log, in order: URL and target path. *)
Fixpoint retrievals (log : list effect) : list (string * string) :=
  match log with
  | [] => []
  | urlretrieve url path :: rest => (url, path) :: retrievals rest
  | _ :: rest => retrievals rest
  end.

(** The successive positions of the progress bar. *)
Fixpoint progress_marks (log : list effect) : list (nat * nat) :=
  match log with
  | [] => []
  | st_progress n d :: rest => (n, d) :: progress_marks rest
  | _ :: rest => progress_marks rest
  end.

Definition is_sleep (e : effect) : bool :=
  match e with time_sleep => true | _ => false end.

Definition is_warning (e : effect) : bool :=
  match e with st_warning _ => true | _ => false end.

Definition is_output (e : effect) : bool :=
  match e with
  | st_dataframe _ _ | st_download_button _ _ _ _ => true
  | _ => false
  end.

(** The character is not the path separator. *)
Definition not_slash (c : ascii) : bool := negb (Ascii.eqb c "/").

(** What the download loop writes into the status of a paper visited at
    index [i]. *)
Definition status_after (fetch : Fetcher) (i : nat) (paper : PaperRecord)
  : string :=
  match usable_url (Paper.pdf_url paper) with
  | Some url => status_of (fetch i url (pdf_path (Paper.id paper)))
  | None => "No PDF URL"
  end.

(** The retrieval, if any, that the download loop makes for a paper. *)
Definition retrieval_of (paper : PaperRecord) : list (string * string) :=
  match usable_url (Paper.pdf_url paper) with
  | Some url => [(url, pdf_path (Paper.id paper))]
  | None => []
  end.

(** ** Vocabulary of the properties *)

(** The shape [Downloaded (<N.N> KB)]: a non-empty run of digits, a point,
    one digit. *)
Definition downloaded_form (s : string) : Prop :=
  exists (whole : string) (tenth : ascii),
    s = "Downloaded (" ++ whole ++ "." ++ String tenth " KB)"
    /\ whole <> EmptyString
    /\ all_chars isdigit whole = true
    /\ isdigit tenth = true.

Definition status_ok (s : string) : Prop :=
  s = "Not downloaded"
  \/ s = "No PDF URL"
  \/ downloaded_form s
  \/ startswith "Failed: " s = true.

(** Everything of a paper dict but its [download_status]. *)
Definition frame (paper : PaperRecord)
  : string * string * Z * string * string * option string :=
  (Paper.id paper, Paper.title paper, Paper.year paper,
   Paper.categories paper, Paper.abstract paper, Paper.pdf_url paper).


(** The results a pull list yields before it ends or raises. *)
Fixpoint yielded (feed : list arxiv.pull) : list arxiv.Result :=
  match feed with
  | arxiv.Yield r :: rest => r :: yielded rest
  | _ => []
  end.

(** Whether iterating the whole pull list meets an exception. *)
Fixpoint raises (feed : list arxiv.pull) : bool :=
  match feed with
  | [] => false
  | arxiv.Raise _ :: _ => true
  | arxiv.Yield _ :: rest => raises rest
  end.

(** The reading of the search contract under which the result cap bounds
    only the retained matches: a search that ends without error and hands
    back fewer than [max_results] papers has retained every matching result
    of the remote listing. *)
Definition keeps_pulling_until_full : Prop :=
  forall (remote : arxiv.Remote) (query : string) (categories : list string)
         (max_results start_year end_year : Z) (result : arxiv.Result),
    (1 <= max_results)%Z ->
    raises (remote query) = false ->
    let papers :=
      fst (query_arxiv remote query categories max_results start_year
                       end_year) in
    (Z.of_nat (List.length papers) < max_results)%Z ->
    In (arxiv.Yield result) (remote query) ->
    accept categories start_year end_year result = true ->
    In (make_paper result) papers.

(** The reading of the export contract under which the file has the six
    displayed columns: its text opens with their header line. *)
Definition export_has_display_columns : Prop :=
  forall papers : list PaperRecord,
    papers <> [] ->
    startswith (pd.csv_line display_columns)
               (pd.to_csv (pd.from_papers papers)) = true.

(** ** A small run, used to exercise the statements *)

Module Sample.

Definition result_of (entry summary : string) (published : Z)
    (tags : list string) (url : option string) : arxiv.Result :=
  {| arxiv.entry_id := entry; arxiv.title := "Laser welding of Al to Cu";
     arxiv.published_year := published; arxiv.categories := tags;
     arxiv.summary := summary; arxiv.pdf_url := url |}.

(** A paper outside the requested categories. *)
Definition off_topic : arxiv.Result :=
  result_of "http://arxiv.org/abs/2401.00002v1" "Graph colourings." 2024
            ["math.CO"] (Some "http://arxiv.org/pdf/2401.00002v1").

(** A paper that passes the filter. *)
Definition on_topic : arxiv.Result :=
  result_of "http://arxiv.org/abs/2301.00001v2" "Keyhole dynamics." 2023
            ["physics.app-ph"; "cond-mat.mtrl-sci"]
            (Some "http://arxiv.org/pdf/2301.00001v2").

Definition wanted : list string := ["cond-mat.mtrl-sci"; "physics.app-ph"].

Definition query : string :=
  "aluminum copper dissimilar welding process parameters".

(** The listing has the off-topic paper first. *)
Definition remote : arxiv.Remote :=
  fun _ => [arxiv.Yield off_topic; arxiv.Yield on_topic].

(** The listing breaks after its first, matching, result. *)
Definition broken_remote : arxiv.Remote :=
  fun _ => [arxiv.Yield on_topic; arxiv.Raise "HTTP 503"].

(** Every retrieval fails, with a reason that mentions its subject. *)
Definition failing : Fetcher :=
  fun _ _ _ => Raised "Downloaded file is corrupt".

(** Every retrieval stores a file of 768 bytes. *)
Definition storing : Fetcher := fun _ _ _ => Stored 768.

Definition found : list PaperRecord := [make_paper on_topic].

(** A second paper that passes the filter. *)
Definition follow_up : arxiv.Result :=
  result_of "http://arxiv.org/abs/2210.00003v1" "Intermetallic layers." 2022
            ["cond-mat.mtrl-sci"] (Some "http://arxiv.org/pdf/2210.00003v1").

Definition found_two : list PaperRecord :=
  [make_paper on_topic; make_paper follow_up].

(** The first retrieval of the run fails, the later ones store a file of
    2048 bytes. *)
Definition flaky : Fetcher :=
  fun i _ _ => match i with O => Raised "HTTP 404" | S _ => Stored 2048 end.

End Sample.

(** ** Facts about the string primitives *)

Section StringFacts.

Lemma length_take (n : nat) (s : string) :
  String.length (take n s) = Nat.min n (String.length s).
Proof.
  revert s; induction n as [|n IH]; intros [|c s]; simpl; auto.
Qed.

Lemma take_prefix (n : nat) (s : string) :
  exists rest, s = take n s ++ rest.
Proof.
  revert s; induction n as [|n IH]; intros s.
  - exists s. destruct s; reflexivity.
  - destruct s as [|c s]; [exists EmptyString; reflexivity|].
    destruct (IH s) as [rest Hrest]. exists rest. simpl. congruence.
Qed.

Lemma length_append (s t : string) :
  String.length (s ++ t) = (String.length s + String.length t)%nat.
Proof. induction s; simpl; congruence. Qed.

Lemma append_assoc (s t u : string) : (s ++ t) ++ u = s ++ t ++ u.
Proof. induction s; simpl; congruence. Qed.

Lemma startswith_spec (p s : string) :
  startswith p s = true <-> exists post, s = p ++ post.
Proof.
  revert s; induction p as [|a p IH]; intros s; simpl.
  - split; [intros _; exists s; reflexivity | reflexivity].
  - destruct s as [|b s].
    + split; [discriminate | intros [post H]; discriminate].
    + rewrite andb_true_iff, IH. split.
      * intros [Hab [post ->]]. apply Ascii.eqb_eq in Hab. subst.
        exists post. reflexivity.
      * intros [post H]. injection H as -> ->. split.
        -- apply Ascii.eqb_refl.
        -- exists post. reflexivity.
Qed.

Lemma contains_spec (needle s : string) :
  contains needle s = true <-> exists pre post, s = pre ++ needle ++ post.
Proof.
  induction s as [|c s IH].
  - cbn [contains]. rewrite orb_false_r, startswith_spec. split.
    + intros [post H]. exists EmptyString, post. exact H.
    + intros [[|a pre] [post H]]; [exists post; exact H | discriminate].
  - cbn [contains]. rewrite orb_true_iff, startswith_spec, IH. split.
    + intros [[post H] | [pre [post H]]].
      * exists EmptyString, post. exact H.
      * exists (String c pre), post. simpl. congruence.
    + intros [[|a pre] [post H]].
      * left. exists post. exact H.
      * right. injection H as -> ->. exists pre, post. reflexivity.
Qed.

Lemma rstrip_empty (s : string) :
  rstrip s = EmptyString <-> all_chars isspace s = true.
Proof.
  induction s as [|c s IH]; simpl.
  - tauto.
  - destruct (rstrip s) eqn:E.
    + destruct (isspace c); simpl.
      * tauto.
      * split; discriminate.
    + split; [discriminate|].
      rewrite andb_true_iff. intros [_ H]. apply IH in H. discriminate.
Qed.

Lemma lstrip_all_space (s : string) :
  all_chars isspace (lstrip s) = all_chars isspace s.
Proof.
  induction s as [|c s IH]; simpl; [reflexivity|].
  destruct (isspace c) eqn:E; simpl.
  - exact IH.
  - rewrite E. reflexivity.
Qed.

Lemma strip_falsy (s : string) :
  truthy (strip s) = false <-> all_chars isspace s = true.
Proof.
  unfold strip. rewrite <- lstrip_all_space, <- rstrip_empty.
  destruct (rstrip (lstrip s)); simpl; split; congruence.
Qed.

Lemma uint_digits (d : Decimal.uint) :
  all_chars isdigit (NilEmpty.string_of_uint d) = true.
Proof. induction d; simpl; auto. Qed.

Lemma str_of_N_digits (n : N) : all_chars isdigit (str_of_N n) = true.
Proof.
  unfold str_of_N, NilZero.string_of_uint.
  destruct (N.to_uint n) eqn:E; try reflexivity; rewrite <- E;
    apply uint_digits.
Qed.

Lemma str_of_N_nonempty (n : N) : str_of_N n <> EmptyString.
Proof.
  unfold str_of_N, NilZero.string_of_uint.
  destruct (N.to_uint n); simpl; discriminate.
Qed.

Lemma str_of_N_one_digit (n : N) :
  (n < 10)%N ->
  exists d, str_of_N n = String d EmptyString /\ isdigit d = true.
Proof.
  intros H.
  assert (Hn : In n [0; 1; 2; 3; 4; 5; 6; 7; 8; 9]%N).
  { destruct n as [|p]; [left; reflexivity|].
    do 10 (destruct p as [p|p|]; simpl; try lia; auto 12). }
  simpl in Hn.
  repeat (destruct Hn as [<- | Hn]; [eexists; split; reflexivity|]).
  contradiction.
Qed.

End StringFacts.

(** ** Facts about the collection loop *)

Section CollectFacts.

Variable categories : list string.
Variables max_results start_year end_year : Z.

Let keep := accept categories start_year end_year.
Let loop := collect categories max_results start_year end_year.


Lemma no_raise_yielded (feed : list arxiv.pull) :
  raises feed = false -> feed = map arxiv.Yield (yielded feed).
Proof.
  induction feed as [|[r|e] feed IH]; simpl; intros H.
  - reflexivity.
  - f_equal. apply IH, H.
  - discriminate.
Qed.

Lemma raises_firstn (n : nat) (feed : list arxiv.pull) :
  raises feed = false -> raises (firstn n feed) = false.
Proof.
  revert feed; induction n as [|n IH]; intros [|[r|e] feed]; simpl; auto.
Qed.

Lemma yielded_firstn (n : nat) (feed : list arxiv.pull) :
  raises feed = false -> yielded (firstn n feed) = firstn n (yielded feed).
Proof.
  revert feed; induction n as [|n IH]; intros [|[r|e] feed]; simpl; auto.
  intros H. f_equal. apply IH, H.
Qed.

Lemma in_firstn {A : Type} (n : nat) (l : list A) (x : A) :
  In x (firstn n l) -> In x l.
Proof.
  intros H. rewrite <- (firstn_skipn n l). apply in_or_app. left. exact H.
Qed.

(** Within the cap the loop is a filter: it never breaks before the last
    pull, and an exception-free feed is mapped to its accepted results. *)
Lemma collect_filter (rs : list arxiv.Result) (papers : list PaperRecord) :
  (Z.of_nat (List.length papers + List.length rs) <= max_results)%Z ->
  loop (map arxiv.Yield rs) papers
  = inr (papers ++ map make_paper (filter keep rs))%list.
Proof.
  subst loop keep. revert papers.
  induction rs as [|r rs IH]; intros papers Hlen; simpl.
  - rewrite app_nil_r. reflexivity.
  - simpl in Hlen.
    destruct (accept categories start_year end_year r) eqn:Hacc.
    + destruct (Z.of_nat (List.length (papers ++ [make_paper r])%list)
                >=? max_results)%Z eqn:Hbrk.
      * rewrite length_app in Hbrk. simpl in Hbrk.
        apply Z.geb_le in Hbrk.
        destruct rs; [reflexivity | simpl in Hlen; lia].
      * rewrite IH.
        -- rewrite <- app_assoc. reflexivity.
        -- rewrite length_app. simpl. lia.
    + destruct (Z.of_nat (List.length papers) >=? max_results)%Z eqn:Hbrk.
      * apply Z.geb_le in Hbrk. lia.
      * apply IH. lia.
Qed.

(** An exception met within the cap escapes the loop, whatever had been
    collected before it. *)
Lemma collect_raise (pre : list arxiv.Result) (e : string)
    (post : list arxiv.pull) (papers : list PaperRecord) :
  (Z.of_nat (List.length papers + List.length pre) < max_results)%Z ->
  loop (map arxiv.Yield pre ++ arxiv.Raise e :: post)%list papers = inl e.
Proof.
  subst loop. revert papers.
  induction pre as [|r pre IH]; intros papers Hlen; simpl.
  - reflexivity.
  - simpl in Hlen.
    destruct (accept categories start_year end_year r).
    + destruct (Z.of_nat (List.length (papers ++ [make_paper r])%list)
                >=? max_results)%Z eqn:Hbrk.
      * rewrite length_app in Hbrk. simpl in Hbrk.
        apply Z.geb_le in Hbrk. lia.
      * apply IH. rewrite length_app. simpl. lia.
    + destruct (Z.of_nat (List.length papers) >=? max_results)%Z eqn:Hbrk.
      * apply Z.geb_le in Hbrk. lia.
      * apply IH. lia.
Qed.

(** The loop alone, on any feed, stops at the cap. *)
Lemma collect_length (feed : list arxiv.pull)
    (papers ps : list PaperRecord) :
  (Z.of_nat (List.length papers) < max_results)%Z ->
  loop feed papers = inr ps ->
  (Z.of_nat (List.length ps) <= max_results)%Z.
Proof.
  subst loop. revert papers.
  induction feed as [|[r|e] feed IH]; intros papers Hlen; simpl.
  - intros [= <-]. lia.
  - assert (Hstep : (Z.of_nat (List.length
               (if accept categories start_year end_year r
                then (papers ++ [make_paper r])%list else papers))
             <= max_results)%Z).
    { destruct (accept categories start_year end_year r);
        [rewrite length_app; simpl|]; lia. }
    destruct (_ >=? max_results)%Z eqn:Hbrk.
    + intros [= <-]. exact Hstep.
    + apply IH. rewrite Z.geb_leb in Hbrk. apply Z.leb_gt in Hbrk. exact Hbrk.
  - discriminate.
Qed.

(** Every paper at loop exit was there at loop entry or was built from a
    yielded result that passed the test. *)
Lemma collect_sound (feed : list arxiv.pull)
    (papers ps : list PaperRecord) :
  loop feed papers = inr ps ->
  forall p, In p ps ->
    In p papers
    \/ exists r, In (arxiv.Yield r) feed /\ p = make_paper r
                 /\ keep r = true.
Proof.
  subst loop keep. revert papers.
  induction feed as [|[r|e] feed IH]; intros papers; simpl.
  - intros [= <-] p Hp. left. exact Hp.
  - assert (Hnew : forall p,
      In p (if accept categories start_year end_year r
            then (papers ++ [make_paper r])%list else papers) ->
      In p papers
      \/ exists r0, (arxiv.Yield r = arxiv.Yield r0 \/ In (arxiv.Yield r0) feed)
                    /\ p = make_paper r0
                    /\ accept categories start_year end_year r0 = true).
    { intros p Hp.
      destruct (accept categories start_year end_year r) eqn:Hacc;
        [|left; exact Hp].
      apply in_app_or in Hp as [Hp | [<- | []]]; [left; exact Hp|].
      right. exists r. auto. }
    destruct (_ >=? max_results)%Z.
    + intros [= <-] p Hp. apply Hnew, Hp.
    + intros Hloop p Hp.
      destruct (IH _ Hloop p Hp) as [Hin | [r0 [Hin [Hp0 Hacc]]]].
      * apply Hnew, Hin.
      * right. exists r0. auto.
  - discriminate.
Qed.

End CollectFacts.

(** ** Facts about the download loop *)

Section DownloadFacts.

Variable fetch : Fetcher.

Lemma status_of_ok (outcome : fetch_outcome) :
  status_ok (status_of outcome).
Proof.
  destruct outcome as [bytes | message]; unfold status_ok; simpl.
  - right; right; left. unfold downloaded_form, format_kb.
    set (tenths := round_half_even_1024 (bytes * 10)).
    destruct (str_of_N_one_digit (tenths mod 10)) as [d [Hd Hdigit]].
    { apply N.mod_lt. discriminate. }
    exists (str_of_N (tenths / 10)), d. rewrite Hd.
    repeat split.
    + simpl. rewrite !append_assoc. reflexivity.
    + apply str_of_N_nonempty.
    + apply str_of_N_digits.
    + exact Hdigit.
  - right; right; right. reflexivity.
Qed.

Lemma download_step_frame (total i : nat) (paper : PaperRecord) :
  frame (fst (download_step fetch total i paper)) = frame paper.
Proof.
  unfold download_step.
  destruct (usable_url (Paper.pdf_url paper)); reflexivity.
Qed.

Lemma download_step_status (total i : nat) (paper : PaperRecord) :
  status_ok (Paper.download_status (fst (download_step fetch total i paper))).
Proof.
  unfold download_step.
  destruct (usable_url (Paper.pdf_url paper)); simpl.
  - apply status_of_ok.
  - right; left; reflexivity.
Qed.

Lemma fst_download_loop_cons (total i : nat) (paper : PaperRecord)
    (rest : list PaperRecord) :
  fst (download_loop fetch total i (paper :: rest))
  = fst (download_step fetch total i paper)
    :: fst (download_loop fetch total (S i) rest).
Proof.
  simpl. destruct (download_step fetch total i paper).
  destruct (download_loop fetch total (S i) rest). reflexivity.
Qed.

Lemma download_loop_frame (total i : nat) (papers : list PaperRecord) :
  map frame (fst (download_loop fetch total i papers)) = map frame papers.
Proof.
  revert i; induction papers as [|paper rest IH]; intros i.
  - reflexivity.
  - rewrite fst_download_loop_cons. simpl.
    rewrite download_step_frame, IH. reflexivity.
Qed.

Lemma download_loop_status (total i : nat) (papers : list PaperRecord) :
  Forall (fun p => status_ok (Paper.download_status p))
         (fst (download_loop fetch total i papers)).
Proof.
  revert i; induction papers as [|paper rest IH]; intros i.
  - constructor.
  - rewrite fst_download_loop_cons. constructor.
    + apply download_step_status.
    + apply IH.
Qed.

Lemma papers_after_start (papers : list PaperRecord) :
  papers_after fetch 0 papers = papers.
Proof. reflexivity. Qed.

Lemma papers_after_end (papers : list PaperRecord) :
  papers_after fetch (List.length papers) papers
  = fst (download_all fetch papers).
Proof.
  unfold papers_after, download_all.
  rewrite firstn_all, skipn_all, app_nil_r. reflexivity.
Qed.

Lemma papers_after_frame (k : nat) (papers : list PaperRecord) :
  map frame (papers_after fetch k papers) = map frame papers.
Proof.
  unfold papers_after.
  rewrite map_app, download_loop_frame, <- map_app, firstn_skipn.
  reflexivity.
Qed.

End DownloadFacts.

Lemma downloaded_count_filter (papers : list PaperRecord) :
  downloaded_count papers
  = List.length
      (filter (fun p => contains "Downloaded" (Paper.download_status p))
              papers).
Proof.
  induction papers as [|p rest IH]; simpl; [reflexivity|].
  destruct (contains "Downloaded" (Paper.download_status p)); simpl; lia.
Qed.

Lemma query_arxiv_fresh (remote : arxiv.Remote) (query : string)
    (categories : list string) (max_results start_year end_year : Z)
    (paper : PaperRecord) :
  In paper (fst (query_arxiv remote query categories max_results start_year
                             end_year)) ->
  exists result,
    In (arxiv.Yield result) (remote query)
    /\ paper = make_paper result
    /\ accept categories start_year end_year result = true.
Proof.
  unfold query_arxiv. cbn [arxiv.results arxiv.query arxiv.max_results].
  destruct (collect _ _ _ _ _ _) as [e | ps] eqn:Hloop; simpl;
    [contradiction|].
  intros Hin.
  destruct (collect_sound _ _ _ _ _ _ _ Hloop paper Hin)
    as [[] | [r [Hr [Hp Hacc]]]].
  exists r. split; [|split; assumption].
  eapply in_firstn, Hr.
Qed.

Lemma query_arxiv_reaches_remote (remote : arxiv.Remote) (query : string)
    (categories : list string) (max_results start_year end_year : Z) :
  existsb is_search
    (snd (query_arxiv remote query categories max_results start_year
                      end_year)) = true.
Proof. unfold query_arxiv. destruct (collect _ _ _ _ _ _); reflexivity. Qed.

Lemma validate_passes (query : string) (categories : list string)
    (start_year end_year : Z) :
  validate query categories start_year end_year = None <->
  all_chars isspace query = false /\ categories <> []
  /\ (start_year <= end_year)%Z.
Proof.
  unfold validate.
  destruct (truthy (strip query)) eqn:Hq; simpl.
  - assert (Hs : all_chars isspace query = false).
    { destruct (all_chars isspace query) eqn:Hall; [|reflexivity].
      apply strip_falsy in Hall. congruence. }
    destruct categories as [|cat cats].
    + split; [discriminate | intros [_ [H _]]; contradiction].
    + destruct (Z.gtb_spec start_year end_year) as [Hgt | Hle].
      * split; [discriminate | intros [_ [_ Hle]]; lia].
      * split; [|reflexivity]. intros _. repeat split; [exact Hs| |lia].
        discriminate.
  - apply strip_falsy in Hq. split; [discriminate|].
    intros [H _]. congruence.
Qed.

(** A search whose pulls raise nothing filters what it pulled. *)
Lemma query_arxiv_filter (remote : arxiv.Remote) (query : string)
    (categories : list string) (max_results start_year end_year : Z)
    (pulled : list arxiv.Result) :
  arxiv.results remote (search_for query max_results)
  = map arxiv.Yield pulled ->
  fst (query_arxiv remote query categories max_results start_year end_year)
  = map make_paper (filter (accept categories start_year end_year) pulled).
Proof.
  intros Hpulled. unfold query_arxiv. rewrite Hpulled.
  destruct (Z.le_gt_cases 0 max_results) as [Hpos | Hneg].
  - rewrite collect_filter; [reflexivity|].
    apply (f_equal (@List.length _)) in Hpulled.
    unfold arxiv.results in Hpulled.
    cbn [search_for arxiv.query arxiv.max_results] in Hpulled.
    rewrite length_map in Hpulled.
    pose proof (firstn_le_length (Z.to_nat max_results) (remote query)).
    simpl. lia.
  - unfold arxiv.results in Hpulled.
    cbn [search_for arxiv.query arxiv.max_results] in Hpulled.
    replace (Z.to_nat max_results) with 0%nat in Hpulled by lia.
    destruct pulled; [reflexivity | discriminate].
Qed.

(** ** The properties of the specification *)

(** C9: the abstract of a paper is the summary itself when the summary has
    at most 200 characters, and otherwise its first 200 characters followed
    by three dots; the dots are appended exactly when the summary was cut. *)
Theorem abstract_truncated_at_200 (result : arxiv.Result) :
  ((String.length (arxiv.summary result) <= 200)%nat ->
     Paper.abstract (make_paper result) = arxiv.summary result)
  /\ ((200 < String.length (arxiv.summary result))%nat ->
        Paper.abstract (make_paper result)
        = take 200 (arxiv.summary result) ++ "..."
        /\ String.length (take 200 (arxiv.summary result)) = 200%nat
        /\ exists rest,
             arxiv.summary result = take 200 (arxiv.summary result) ++ rest)
  /\ (Paper.abstract (make_paper result)
      = take 200 (arxiv.summary result) ++ "..."
      <-> (200 < String.length (arxiv.summary result))%nat).
Proof.
  cbn [make_paper Paper.abstract]. unfold abstract_of.
  generalize (arxiv.summary result) as s. intros s.
  destruct (Nat.ltb_spec 200 (String.length s)) as [Hlong | Hshort].
  - split; [lia|]. split; [|tauto]. intros _.
    split; [reflexivity|]. split; [|apply take_prefix].
    rewrite length_take. lia.
  - split; [reflexivity|]. split; [lia|]. split; [|lia].
    intros H. apply (f_equal String.length) in H.
    rewrite length_append, length_take in H. cbn [String.length] in H. lia.
Qed.

(** C4: when the requested maximum is at least one, as the result-count
    control guarantees, a search never returns more papers than that
    maximum. *)
Theorem result_count_at_most_max_results (remote : arxiv.Remote)
    (query : string) (categories : list string)
    (max_results start_year end_year : Z) :
  (1 <= max_results)%Z ->
  (Z.of_nat (List.length
     (fst (query_arxiv remote query categories max_results start_year
                       end_year))) <= max_results)%Z.
Proof.
  intros Hmax. unfold query_arxiv.
  destruct (collect _ _ _ _ _ _) as [e | ps] eqn:Hloop; simpl; [lia|].
  eapply collect_length; [|exact Hloop]. simpl. lia.
Qed.

Lemma result_count_at_most_max_results_witness :
  (1 <= 1)%Z
  /\ (Z.of_nat (List.length
        (fst (query_arxiv Sample.broken_remote Sample.query Sample.wanted 1
                          2015 2024))) <= 1)%Z.
Proof.
  split; [lia|].
  apply (result_count_at_most_max_results Sample.broken_remote Sample.query
           Sample.wanted 1 2015 2024).
  lia.
Defined.

(** C6: an exception met while the results are pulled makes [query_arxiv]
    return the empty list, whatever had been collected before, and show
    one error message, carrying the text of the exception; the handler then
    reports that no paper was found and attempts no download. *)
Theorem search_error_gives_empty_result (remote : arxiv.Remote)
    (query : string) (categories : list string)
    (max_results start_year end_year : Z)
    (pre : list arxiv.Result) (message : string) (post : list arxiv.pull) :
  remote query = (map arxiv.Yield pre ++ arxiv.Raise message :: post)%list ->
  (Z.of_nat (List.length pre) < max_results)%Z ->
  query_arxiv remote query categories max_results start_year end_year
  = ([], [client_results (search_for query max_results);
          st_error ("Error querying arXiv: " ++ message)])
  /\ List.length
       (filter is_error
          (snd (query_arxiv remote query categories max_results start_year
                            end_year))) = 1%nat
  /\ (forall fetch,
        validate query categories start_year end_year = None ->
        on_search remote fetch query categories max_results start_year
                  end_year
        = [st_spinner "Querying arXiv...";
           client_results (search_for query max_results);
           st_error ("Error querying arXiv: " ++ message);
           st_warning "No papers found matching your criteria.";
           st_markdown suggestions]).
Proof.
  intros Hfeed Hlen.
  assert (Hq : query_arxiv remote query categories max_results start_year
                           end_year
               = ([], [client_results (search_for query max_results);
                       st_error ("Error querying arXiv: " ++ message)])).
  { unfold query_arxiv, arxiv.results.
    cbn [search_for arxiv.query arxiv.max_results].
    rewrite Hfeed, firstn_app, length_map.
    rewrite (firstn_all2 (map arxiv.Yield pre))
      by (rewrite length_map; lia).
    destruct (Z.to_nat max_results - List.length pre)%nat as [|k] eqn:Hk;
      [lia|].
    cbn [firstn].
    rewrite collect_raise by (simpl; exact Hlen). reflexivity. }
  split; [exact Hq|]. split; [rewrite Hq; reflexivity|].
  intros fetch Hvalid. unfold on_search. rewrite Hvalid, Hq. reflexivity.
Qed.

Lemma search_error_gives_empty_result_witness :
  Sample.broken_remote Sample.query
  = (map arxiv.Yield [Sample.on_topic] ++ arxiv.Raise "HTTP 503" :: [])%list
  /\ (Z.of_nat (List.length [Sample.on_topic]) < 5)%Z
  /\ query_arxiv Sample.broken_remote Sample.query Sample.wanted 5 2015 2024
     = ([], [client_results (search_for Sample.query 5);
             st_error "Error querying arXiv: HTTP 503"]).
Proof.
  split; [reflexivity|]. split; [simpl; lia|].
  apply (search_error_gives_empty_result Sample.broken_remote Sample.query
           Sample.wanted 5 2015 2024 [Sample.on_topic] "HTTP 503" []).
  - reflexivity.
  - simpl; lia.
Defined.


(** C2, as the script has it: the requested maximum is handed to the
    remote search as its result cap, so only the first [max_results] raw
    results are ever examined.  Nothing beyond them influences a search,
    and when they raise nothing the returned papers are those among them
    that pass the filter, in order: for a listing that never raises, the
    accepted ones of its first [max_results] results. *)
Theorem search_examines_first_max_results (remote : arxiv.Remote)
    (query : string) (categories : list string)
    (max_results start_year end_year : Z) :
  (1 <= max_results)%Z ->
  (forall remote' : arxiv.Remote,
     firstn (Z.to_nat max_results) (remote' query)
     = firstn (Z.to_nat max_results) (remote query) ->
     query_arxiv remote' query categories max_results start_year end_year
     = query_arxiv remote query categories max_results start_year end_year)
  /\ (raises (firstn (Z.to_nat max_results) (remote query)) = false ->
      fst (query_arxiv remote query categories max_results start_year
                       end_year)
      = map make_paper
          (filter (accept categories start_year end_year)
             (yielded (firstn (Z.to_nat max_results) (remote query)))))
  /\ (raises (remote query) = false ->
      fst (query_arxiv remote query categories max_results start_year
                       end_year)
      = map make_paper
          (filter (accept categories start_year end_year)
             (firstn (Z.to_nat max_results) (yielded (remote query))))).
Proof.
  intros Hmax.
  assert (Hcap : raises (firstn (Z.to_nat max_results) (remote query)) = false ->
                 fst (query_arxiv remote query categories max_results
                                  start_year end_year)
                 = map make_paper
                     (filter (accept categories start_year end_year)
                        (yielded (firstn (Z.to_nat max_results)
                                         (remote query))))).
  { intros Hquiet. apply query_arxiv_filter.
    apply no_raise_yielded, Hquiet. }
  split; [|split; [exact Hcap|]].
  - intros remote' Hsame. unfold query_arxiv, arxiv.results.
    cbn [search_for arxiv.query arxiv.max_results].
    rewrite Hsame. reflexivity.
  - intros Hquiet. rewrite <- yielded_firstn by exact Hquiet.
    apply Hcap, raises_firstn, Hquiet.
Qed.

Lemma search_examines_first_max_results_witness :
  (1 <= 1)%Z
  /\ fst (query_arxiv Sample.remote Sample.query Sample.wanted 1 2015 2024)
     = map make_paper
         (filter (accept Sample.wanted 2015 2024)
            (yielded (firstn (Z.to_nat 1) (Sample.remote Sample.query)))).
Proof.
  assert (Hmax : (1 <= 1)%Z) by lia.
  split; [exact Hmax|].
  destruct (search_examines_first_max_results Sample.remote Sample.query
              Sample.wanted 1 2015 2024 Hmax) as [_ [Hfilter _]].
  apply Hfilter. reflexivity.
Defined.

(** C2, as the specification words it, fails: with a maximum of one and a
    listing whose first result is off topic and whose second passes the
    filter, the search returns nothing although a matching result
    remains. *)
Lemma keeps_pulling_until_full_fails : ~ keeps_pulling_until_full.
Proof.
  intros H.
  assert (Hin : In (make_paper Sample.on_topic)
                   (fst (query_arxiv Sample.remote Sample.query
                                     Sample.wanted 1 2015 2024))).
  { apply H.
    - lia.
    - reflexivity.
    - vm_compute. reflexivity.
    - right; left; reflexivity.
    - reflexivity. }
  vm_compute in Hin. exact Hin.
Qed.

(** C5: a run of the search handler reaches the remote search exactly when
    the query has a character that is not white space, some category is
    selected and the start year does not exceed the end year; with an empty
    query, no category or inverted years it shows one error message and
    does nothing else. *)
Theorem validation_guards_search (remote : arxiv.Remote) (fetch : Fetcher)
    (query : string) (categories : list string)
    (max_results start_year end_year : Z) :
  (existsb is_search
     (on_search remote fetch query categories max_results start_year
                end_year) = true
   <-> all_chars isspace query = false /\ categories <> []
       /\ (start_year <= end_year)%Z)
  /\ (query = EmptyString \/ categories = [] \/ (start_year > end_year)%Z ->
      exists message,
        on_search remote fetch query categories max_results start_year
                  end_year = [st_error message]).
Proof.
  pose proof (validate_passes query categories start_year end_year) as Hv.
  pose proof (query_arxiv_reaches_remote remote query categories max_results
                start_year end_year) as Hreach.
  unfold on_search.
  destruct (validate query categories start_year end_year) as [message|].
  - split.
    + split; [discriminate|]. intros Hok. apply Hv in Hok. discriminate.
    + intros _. exists message. reflexivity.
  - destruct Hv as [Hv _]. specialize (Hv eq_refl).
    destruct Hv as [Hq [Hc Hy]]. split.
    + split; [intros _; auto|]. intros _.
      destruct (query_arxiv remote query categories max_results start_year
                            end_year) as [papers log].
      cbn [existsb is_search]. rewrite existsb_app.
      simpl in Hreach. rewrite Hreach. reflexivity.
    + intros [-> | [-> | Hgt]]; [discriminate | contradiction | lia].
Qed.

(** C7: from the moment [query_arxiv] has built the papers, and after any
    number of iterations of the download loop over them, the
    [download_status] of every paper is "Not downloaded", "No PDF URL",
    "Downloaded (<digits>.<digit> KB)" or begins with "Failed: ". *)
Theorem download_status_always_valid (remote : arxiv.Remote)
    (fetch : Fetcher) (query : string) (categories : list string)
    (max_results start_year end_year : Z) (k : nat) (paper : PaperRecord) :
  In paper
     (papers_after fetch k
        (fst (query_arxiv remote query categories max_results start_year
                          end_year))) ->
  status_ok (Paper.download_status paper).
Proof.
  unfold papers_after. intros Hin.
  apply in_app_or in Hin as [Hdone | Htodo].
  - pose proof (download_loop_status fetch
        (List.length (fst (query_arxiv remote query categories max_results
                                       start_year end_year))) 0
        (firstn k (fst (query_arxiv remote query categories max_results
                                    start_year end_year)))) as Hall.
    rewrite Forall_forall in Hall. apply Hall, Hdone.
  - assert (Hfound : In paper
              (fst (query_arxiv remote query categories max_results
                                start_year end_year))).
    { rewrite <- (firstn_skipn k). apply in_or_app. right. exact Htodo. }
    destruct (query_arxiv_fresh _ _ _ _ _ _ _ Hfound) as [r [_ [-> _]]].
    left. reflexivity.
Qed.

Lemma download_status_always_valid_witness :
  In (Paper.set_download_status (make_paper Sample.on_topic)
        "Downloaded (0.8 KB)")
     (papers_after Sample.storing 1
        (fst (query_arxiv Sample.remote Sample.query Sample.wanted 2 2015
                          2024)))
  /\ status_ok "Downloaded (0.8 KB)".
Proof.
  assert (Hin : In (Paper.set_download_status (make_paper Sample.on_topic)
                      "Downloaded (0.8 KB)")
                   (papers_after Sample.storing 1
                      (fst (query_arxiv Sample.remote Sample.query
                                        Sample.wanted 2 2015 2024)))).
  { left. reflexivity. }
  split; [exact Hin|].
  exact (download_status_always_valid Sample.remote Sample.storing
           Sample.query Sample.wanted 2 2015 2024 1 _ Hin).
Defined.

(** C8: the download loop, after any number of iterations, from none to
    all of them, leaves the id, title, year, categories, abstract and
    pdf_url of every paper as [query_arxiv] built them, and neither adds
    nor drops a paper. *)
Theorem download_touches_only_status (fetch : Fetcher)
    (papers : list PaperRecord) :
  (forall k, map frame (papers_after fetch k papers) = map frame papers)
  /\ papers_after fetch 0 papers = papers
  /\ papers_after fetch (List.length papers) papers
     = fst (download_all fetch papers)
  /\ map frame (fst (download_all fetch papers)) = map frame papers
  /\ List.length (fst (download_all fetch papers)) = List.length papers.
Proof.
  split; [intros k; apply papers_after_frame|].
  split; [apply papers_after_start|]. split; [apply papers_after_end|].
  assert (H : map frame (fst (download_all fetch papers)) = map frame papers)
    by apply download_loop_frame.
  split; [exact H|].
  apply (f_equal (@List.length _)) in H. rewrite !length_map in H. exact H.
Qed.

(** C1, as the script has it: the file offered for download is the export
    of the whole data frame.  Its header names the seven keys of a paper
    dict, pdf_url among them, it has one row per paper, and only the table
    shown on screen is restricted to the six other columns. *)
Theorem export_has_all_seven_columns (fetch : Fetcher) (query : string)
    (categories : list string) (start_year end_year : Z)
    (papers : list PaperRecord) :
  papers <> [] ->
  pd.columns (pd.from_papers (fst (download_all fetch papers)))
  = ["id"; "title"; "year"; "categories"; "abstract"; "pdf_url";
     "download_status"]
  /\ pd.rows (pd.from_papers (fst (download_all fetch papers)))
     = map pd.paper_values (fst (download_all fetch papers))
  /\ List.length (pd.rows (pd.from_papers (fst (download_all fetch papers))))
     = List.length papers
  /\ pd.to_csv (pd.from_papers (fst (download_all fetch papers)))
     = "id,title,year,categories,abstract,pdf_url,download_status"
       ++ String pd.LF
            (String.concat EmptyString
               (map (fun p => pd.csv_line (map pd.cell_text
                                                (pd.paper_values p)))
                    (fst (download_all fetch papers))))
  /\ In (st_download_button "Download Paper Metadata CSV"
           (pd.to_csv (pd.from_papers (fst (download_all fetch papers))))
           "alcu_papers_metadata.csv" "text/csv")
        (report fetch query categories start_year end_year papers)
  /\ In (st_dataframe display_columns
           (map (map pd.cell_text)
              (pd.rows (pd.select display_columns
                          (pd.from_papers
                             (fst (download_all fetch papers)))))))
        (report fetch query categories start_year end_year papers).
Proof.
  intros Hne.
  destruct papers as [|paper rest]; [contradiction|].
  assert (Hlen : List.length (fst (download_all fetch (paper :: rest)))
                 = List.length (paper :: rest)).
  { pose proof (download_loop_frame fetch (List.length (paper :: rest)) 0
                  (paper :: rest)) as H.
    apply (f_equal (@List.length _)) in H. rewrite !length_map in H.
    exact H. }
  unfold report.
  destruct (download_all fetch (paper :: rest)) as [papers' log] eqn:Hdl.
  cbn [fst] in *.
  destruct papers' as [|paper' rest']; [discriminate|].
  split; [reflexivity|]. split; [reflexivity|].
  split; [cbn [pd.from_papers pd.rows]; rewrite length_map; exact Hlen|].
  split.
  { unfold pd.to_csv. cbn [pd.from_papers pd.columns pd.rows].
    rewrite map_map. reflexivity. }
  split.
  - apply in_or_app. right. apply in_or_app. right. apply in_or_app. left.
    right; right; left. reflexivity.
  - apply in_or_app. right. apply in_or_app. right. apply in_or_app. left.
    right; left. reflexivity.
Qed.

Lemma export_has_all_seven_columns_witness :
  Sample.found <> []
  /\ pd.to_csv (pd.from_papers (fst (download_all Sample.storing
                                                    Sample.found)))
     = "id,title,year,categories,abstract,pdf_url,download_status"
       ++ String pd.LF
            (String.concat EmptyString
               (map (fun p => pd.csv_line (map pd.cell_text
                                                (pd.paper_values p)))
                    (fst (download_all Sample.storing Sample.found)))).
Proof.
  assert (Hne : Sample.found <> []) by discriminate.
  split; [exact Hne|].
  destruct (export_has_all_seven_columns Sample.storing Sample.query
              Sample.wanted 2015 2024 Sample.found Hne)
    as [_ [_ [_ [Hcsv _]]]].
  exact Hcsv.
Defined.

(** C1, as the specification words it, fails: the export of a one-paper
    result has a pdf_url column, so its header line is not that of the six
    displayed columns. *)
Lemma export_has_display_columns_fails : ~ export_has_display_columns.
Proof.
  intros H.
  assert (Hne : Sample.found <> []) by discriminate.
  specialize (H Sample.found Hne). vm_compute in H. discriminate H.
Qed.

(** ** Further properties of the script *)

(** *** The identifier and the path of the stored file *)

Lemma split_nonempty (sep : ascii) (s : string) : split sep s <> [].
Proof.
  destruct s as [|c s]; simpl; [discriminate|].
  destruct (Ascii.eqb c sep); [discriminate|].
  destruct (split sep s); discriminate.
Qed.

Lemma join_split (sep : ascii) (s : string) :
  join (String sep EmptyString) (split sep s) = s.
Proof.
  induction s as [|c s IH]; [reflexivity|].
  cbn [split].
  destruct (Ascii.eqb_spec c sep) as [-> | Hc].
  - pose proof (split_nonempty sep s) as Hne.
    destruct (split sep s) as [|hd tl]; [contradiction|].
    change (join (String sep EmptyString) (EmptyString :: hd :: tl))
      with (String sep (join (String sep EmptyString) (hd :: tl))).
    rewrite IH. reflexivity.
  - pose proof (split_nonempty sep s) as Hne.
    destruct (split sep s) as [|hd tl]; [contradiction|].
    rewrite <- IH. destruct tl; reflexivity.
Qed.

Lemma split_parts_clean (sep : ascii) (s : string) :
  Forall (fun part => all_chars (fun c => negb (Ascii.eqb c sep)) part = true)
         (split sep s).
Proof.
  induction s as [|c s IH]; simpl.
  - constructor; [reflexivity | constructor].
  - destruct (Ascii.eqb c sep) eqn:Hc.
    + constructor; [reflexivity | exact IH].
    + destruct (split sep s) as [|hd tl].
      * constructor; [simpl; rewrite Hc; reflexivity | constructor].
      * inversion IH as [|? ? Hhd Htl]; subst.
        constructor; [simpl; rewrite Hc, Hhd; reflexivity | exact Htl].
Qed.

Lemma join_ends_with_last (sep : string) (parts : list string) :
  parts <> [] ->
  join sep parts = last parts EmptyString
  \/ exists before, join sep parts = before ++ sep ++ last parts EmptyString.
Proof.
  induction parts as [|p rest IH]; [contradiction|]. intros _.
  destruct rest as [|q rest]; [left; reflexivity|].
  right.
  change (join sep (p :: q :: rest)) with (p ++ sep ++ join sep (q :: rest)).
  change (last (p :: q :: rest) EmptyString)
    with (last (q :: rest) EmptyString).
  destruct IH as [-> | [before ->]]; [discriminate | |].
  - exists p. reflexivity.
  - exists (p ++ sep ++ before). rewrite !append_assoc. reflexivity.
Qed.

Lemma last_in {A : Type} (l : list A) (d : A) : l <> [] -> In (last l d) l.
Proof.
  induction l as [|x l IH]; [contradiction|]. intros _.
  destruct l as [|y l]; [left; reflexivity|].
  right. apply IH. discriminate.
Qed.

Lemma id_has_no_slash (entry : string) :
  all_chars not_slash (last_item (split "/" entry)) = true.
Proof.
  pose proof (split_parts_clean "/" entry) as Hclean.
  rewrite Forall_forall in Hclean. apply Hclean.
  apply last_in, split_nonempty.
Qed.

(** X1: the id of a paper is what follows the last slash of the entry
    identifier: it holds no slash, and the identifier is the id itself or
    ends with a slash followed by the id. *)
Theorem paper_id_is_last_segment (result : arxiv.Result) :
  all_chars not_slash (Paper.id (make_paper result)) = true
  /\ (arxiv.entry_id result = Paper.id (make_paper result)
      \/ exists before,
           arxiv.entry_id result
           = before ++ "/" ++ Paper.id (make_paper result)).
Proof.
  cbn [make_paper Paper.id]. split; [apply id_has_no_slash|].
  pose proof (join_ends_with_last "/" (split "/" (arxiv.entry_id result))
                (split_nonempty _ _)) as H.
  rewrite join_split in H. exact H.
Qed.

Lemma pdf_path_of_clean_id (paper_id : string) :
  all_chars not_slash paper_id = true ->
  pdf_path paper_id = "pdfs/" ++ paper_id ++ ".pdf"
  /\ all_chars not_slash (paper_id ++ ".pdf") = true.
Proof.
  intros Hclean. split.
  - unfold pdf_path, path_join.
    destruct paper_id as [|c rest]; [reflexivity|].
    simpl in Hclean. apply andb_true_iff in Hclean as [Hc _].
    unfold not_slash in Hc. apply negb_true_iff in Hc.
    cbn [append startswith]. rewrite Ascii.eqb_sym, Hc. reflexivity.
  - induction paper_id as [|c rest IH]; [reflexivity|].
    simpl in Hclean |- *. apply andb_true_iff in Hclean as [Hc Hrest].
    rewrite Hc. apply IH, Hrest.
Qed.

(** X2: the file of a paper built by the search is always stored directly
    inside the PDF directory, as pdfs/<id>.pdf, with a file name that holds
    no path separator. *)
Theorem pdf_is_stored_inside_pdf_dir (result : arxiv.Result) :
  pdf_path (Paper.id (make_paper result))
  = "pdfs/" ++ Paper.id (make_paper result) ++ ".pdf"
  /\ all_chars not_slash (Paper.id (make_paper result) ++ ".pdf") = true.
Proof. apply pdf_path_of_clean_id, id_has_no_slash. Qed.

(** *** The abstract and the size shown *)

Lemma take_short (n : nat) (s : string) :
  (String.length s <= n)%nat -> take n s = s.
Proof.
  revert s; induction n as [|n IH]; intros [|c s]; simpl; intros H;
    try reflexivity; try lia.
  f_equal. apply IH. lia.
Qed.

(** X3: the abstract of a paper never has more than 203 characters, and it
    always begins with the first 200 characters of the summary. *)
Theorem abstract_is_short_prefix (result : arxiv.Result) :
  (String.length (Paper.abstract (make_paper result)) <= 203)%nat
  /\ startswith (take 200 (arxiv.summary result))
                (Paper.abstract (make_paper result)) = true.
Proof.
  cbn [make_paper Paper.abstract]. unfold abstract_of.
  generalize (arxiv.summary result) as s. intros s.
  destruct (Nat.ltb_spec 200 (String.length s)) as [Hlong | Hshort].
  - split.
    + rewrite length_append, length_take. cbn [String.length]. lia.
    + apply startswith_spec. exists "...". reflexivity.
  - split; [lia|]. apply startswith_spec. exists EmptyString.
    rewrite take_short by exact Hshort.
    clear. induction s; simpl; congruence.
Qed.

Lemma round_half_even_1024_close (num : N) :
  (1024 * round_half_even_1024 num <= num + 512
   /\ num <= 1024 * round_half_even_1024 num + 512)%N.
Proof.
  unfold round_half_even_1024. cbv zeta.
  pose proof (N.div_mod num 1024 ltac:(discriminate)) as Hdm.
  pose proof (N.mod_lt num 1024 ltac:(discriminate)) as Hlt.
  revert Hdm Hlt.
  generalize (num / 1024)%N as q. generalize (num mod 1024)%N as r.
  intros r q Hdm Hlt.
  destruct (N.ltb_spec r 512);
    [|destruct (N.ltb_spec 512 r); [|destruct (N.even q)]]; lia.
Qed.

Lemma round_half_even_1024_mono (n m : N) :
  (n <= m)%N -> (round_half_even_1024 n <= round_half_even_1024 m)%N.
Proof.
  intros Hle. unfold round_half_even_1024. cbv zeta.
  pose proof (N.div_mod n 1024 ltac:(discriminate)) as Hn.
  pose proof (N.mod_lt n 1024 ltac:(discriminate)) as Hnlt.
  pose proof (N.div_mod m 1024 ltac:(discriminate)) as Hm.
  pose proof (N.mod_lt m 1024 ltac:(discriminate)) as Hmlt.
  revert Hn Hnlt Hm Hmlt.
  generalize (n / 1024)%N as qn. generalize (n mod 1024)%N as rn.
  generalize (m / 1024)%N as qm. generalize (m mod 1024)%N as rm.
  intros rm qm rn qn Hn Hnlt Hm Hmlt.
  assert (Hq : (qn < qm \/ qn = qm)%N) by lia.
  destruct Hq as [Hq | ->].
  - destruct (rn <? 512)%N, (512 <? rn)%N, (N.even qn),
      (rm <? 512)%N, (512 <? rm)%N, (N.even qm); lia.
  - destruct (N.ltb_spec rn 512); destruct (N.ltb_spec rm 512); try lia;
      destruct (N.ltb_spec 512 rn); destruct (N.ltb_spec 512 rm); try lia;
      destruct (N.even qm); lia.
Qed.

(** X4: the size written in a "Downloaded" status, counted in tenths of a
    kilobyte, is within half a tenth of the size of the stored file, and a
    larger file is never shown with a smaller size. *)
Theorem shown_size_is_nearest_tenth (bytes bytes' : N)
    (url paper_id : string) :
  (1024 * round_half_even_1024 (bytes * 10) <= bytes * 10 + 512)%N
  /\ (bytes * 10 <= 1024 * round_half_even_1024 (bytes * 10) + 512)%N
  /\ fst (download_pdf (fun _ _ => Stored bytes) url paper_id)
     = "Downloaded ("
       ++ str_of_N (round_half_even_1024 (bytes * 10) / 10) ++ "."
       ++ str_of_N (round_half_even_1024 (bytes * 10) mod 10) ++ " KB)"
  /\ ((bytes <= bytes')%N ->
      (round_half_even_1024 (bytes * 10)
       <= round_half_even_1024 (bytes' * 10))%N).
Proof.
  pose proof (round_half_even_1024_close (bytes * 10)) as [Hlo Hhi].
  split; [exact Hlo|]. split; [exact Hhi|]. split.
  - cbn [download_pdf fst status_of]. unfold format_kb.
    rewrite !append_assoc. reflexivity.
  - intros Hle. apply round_half_even_1024_mono. lia.
Qed.

(** *** The download loop, paper by paper *)

Section DownloadLog.

Variable fetch : Fetcher.

Lemma download_step_fst (total i : nat) (paper : PaperRecord) :
  fst (download_step fetch total i paper)
  = Paper.set_download_status paper (status_after fetch i paper).
Proof.
  unfold download_step, status_after.
  destruct (usable_url (Paper.pdf_url paper)); reflexivity.
Qed.

Lemma download_step_snd (total i : nat) (paper : PaperRecord) :
  snd (download_step fetch total i paper)
  = (map (fun r => urlretrieve (fst r) (snd r)) (retrieval_of paper)
     ++ [st_progress (S i) total; time_sleep])%list.
Proof.
  unfold download_step, retrieval_of.
  destruct (usable_url (Paper.pdf_url paper)); reflexivity.
Qed.

Lemma snd_download_loop_cons (total i : nat) (paper : PaperRecord)
    (rest : list PaperRecord) :
  snd (download_loop fetch total i (paper :: rest))
  = (snd (download_step fetch total i paper)
     ++ snd (download_loop fetch total (S i) rest))%list.
Proof.
  simpl. destruct (download_step fetch total i paper).
  destruct (download_loop fetch total (S i) rest). reflexivity.
Qed.

Lemma retrievals_app (log log' : list effect) :
  retrievals (log ++ log') = (retrievals log ++ retrievals log')%list.
Proof.
  induction log as [|e log IH]; [reflexivity|].
  destruct e; simpl; rewrite ?IH; reflexivity.
Qed.

Lemma progress_marks_app (log log' : list effect) :
  progress_marks (log ++ log')
  = (progress_marks log ++ progress_marks log')%list.
Proof.
  induction log as [|e log IH]; [reflexivity|].
  destruct e; simpl; rewrite ?IH; reflexivity.
Qed.

Lemma step_log_retrievals (total i : nat) (paper : PaperRecord) :
  retrievals (snd (download_step fetch total i paper)) = retrieval_of paper.
Proof.
  rewrite download_step_snd. unfold retrieval_of.
  destruct (usable_url (Paper.pdf_url paper)); reflexivity.
Qed.

Lemma step_log_marks (total i : nat) (paper : PaperRecord) :
  progress_marks (snd (download_step fetch total i paper)) = [(S i, total)].
Proof.
  rewrite download_step_snd. unfold retrieval_of.
  destruct (usable_url (Paper.pdf_url paper)); reflexivity.
Qed.

Lemma step_log_sleeps (total i : nat) (paper : PaperRecord) :
  filter is_sleep (snd (download_step fetch total i paper)) = [time_sleep].
Proof.
  rewrite download_step_snd. unfold retrieval_of.
  destruct (usable_url (Paper.pdf_url paper)); reflexivity.
Qed.

Lemma step_log_quiet (total i : nat) (paper : PaperRecord) :
  existsb is_warning (snd (download_step fetch total i paper)) = false
  /\ existsb is_output (snd (download_step fetch total i paper)) = false.
Proof.
  rewrite download_step_snd. unfold retrieval_of.
  destruct (usable_url (Paper.pdf_url paper)); split; reflexivity.
Qed.

Lemma loop_log_retrievals (total i : nat) (papers : list PaperRecord) :
  retrievals (snd (download_loop fetch total i papers))
  = flat_map retrieval_of papers.
Proof.
  revert i; induction papers as [|paper rest IH]; intros i; [reflexivity|].
  rewrite snd_download_loop_cons, retrievals_app, step_log_retrievals, IH.
  reflexivity.
Qed.

Lemma loop_log_marks (total i : nat) (papers : list PaperRecord) :
  progress_marks (snd (download_loop fetch total i papers))
  = map (fun j => (S j, total)) (seq i (List.length papers)).
Proof.
  revert i; induction papers as [|paper rest IH]; intros i; [reflexivity|].
  rewrite snd_download_loop_cons, progress_marks_app, step_log_marks, IH.
  reflexivity.
Qed.

Lemma loop_log_sleeps (total i : nat) (papers : list PaperRecord) :
  List.length (filter is_sleep (snd (download_loop fetch total i papers)))
  = List.length papers.
Proof.
  revert i; induction papers as [|paper rest IH]; intros i; [reflexivity|].
  rewrite snd_download_loop_cons, filter_app, step_log_sleeps.
  simpl. rewrite IH. reflexivity.
Qed.

Lemma loop_log_quiet (total i : nat) (papers : list PaperRecord) :
  existsb is_warning (snd (download_loop fetch total i papers)) = false
  /\ existsb is_output (snd (download_loop fetch total i papers)) = false.
Proof.
  revert i; induction papers as [|paper rest IH]; intros i;
    [split; reflexivity|].
  rewrite snd_download_loop_cons, !existsb_app.
  destruct (step_log_quiet total i paper) as [-> ->].
  destruct (IH (S i)) as [-> ->]. split; reflexivity.
Qed.

Lemma loop_nth (total i k : nat) (papers : list PaperRecord) :
  nth_error (fst (download_loop fetch total i papers)) k
  = option_map
      (fun paper =>
         Paper.set_download_status paper (status_after fetch (i + k) paper))
      (nth_error papers k).
Proof.
  revert i k; induction papers as [|paper rest IH]; intros i k.
  - destruct k; reflexivity.
  - rewrite fst_download_loop_cons. destruct k as [|k].
    + simpl. rewrite download_step_fst, Nat.add_0_r. reflexivity.
    + simpl. rewrite IH. replace (S i + k)%nat with (i + S k)%nat by lia.
      reflexivity.
Qed.

Lemma loop_in (total i : nat) (papers : list PaperRecord)
    (paper' : PaperRecord) :
  In paper' (fst (download_loop fetch total i papers)) ->
  exists k paper,
    In paper papers
    /\ paper' = Paper.set_download_status paper (status_after fetch k paper).
Proof.
  revert i; induction papers as [|paper rest IH]; intros i;
    [intros []|].
  rewrite fst_download_loop_cons. intros [<- | Hin].
  - exists i, paper. split; [left; reflexivity | apply download_step_fst].
  - destruct (IH _ Hin) as [k [p [Hp ->]]].
    exists k, p. split; [right; exact Hp | reflexivity].
Qed.

End DownloadLog.

(** X5: the download loop makes one retrieval for each paper that has a
    usable URL and none for the others, in the order of the papers, each
    into the path built from the paper's id; it moves the progress bar once
    per paper, from 1/n up to n/n, and sleeps once per paper. *)
Theorem download_log_follows_papers (fetch : Fetcher)
    (papers : list PaperRecord) :
  retrievals (snd (download_all fetch papers)) = flat_map retrieval_of papers
  /\ progress_marks (snd (download_all fetch papers))
     = map (fun j => (S j, List.length papers))
           (seq 0 (List.length papers))
  /\ List.length (filter is_sleep (snd (download_all fetch papers)))
     = List.length papers.
Proof.
  unfold download_all. split; [apply loop_log_retrievals|].
  split; [apply loop_log_marks | apply loop_log_sleeps].
Qed.

(** X6: the status that the loop gives the paper at index [k] is fixed by
    that paper and by the outcome of its own retrieval alone: a failure or
    a missing URL at another index changes nothing for it, and the loop
    goes on to the end of the list. *)
Theorem download_outcomes_are_independent (fetch : Fetcher)
    (papers : list PaperRecord) (k : nat) (paper : PaperRecord) :
  nth_error papers k = Some paper ->
  nth_error (fst (download_all fetch papers)) k
  = Some (Paper.set_download_status paper
            (match usable_url (Paper.pdf_url paper) with
             | Some url => status_of (fetch k url (pdf_path (Paper.id paper)))
             | None => "No PDF URL"
             end)).
Proof.
  intros Hk. unfold download_all. rewrite loop_nth, Hk. reflexivity.
Qed.

Lemma download_outcomes_are_independent_witness :
  nth_error Sample.found_two 1 = Some (make_paper Sample.follow_up)
  /\ nth_error (fst (download_all Sample.flaky Sample.found_two)) 0
     = Some (Paper.set_download_status (make_paper Sample.on_topic)
               "Failed: HTTP 404")
  /\ nth_error (fst (download_all Sample.flaky Sample.found_two)) 1
     = Some (Paper.set_download_status (make_paper Sample.follow_up)
               "Downloaded (2.0 KB)").
Proof.
  assert (Hk : nth_error Sample.found_two 1
               = Some (make_paper Sample.follow_up))
    by reflexivity.
  split; [exact Hk|]. split; [reflexivity|].
  exact (download_outcomes_are_independent Sample.flaky Sample.found_two 1
           (make_paper Sample.follow_up) Hk).
Defined.

Lemma status_after_cases (fetch : Fetcher) (k : nat) (paper : PaperRecord) :
  (usable_url (Paper.pdf_url paper) = None
   /\ status_after fetch k paper = "No PDF URL")
  \/ (exists url bytes,
        usable_url (Paper.pdf_url paper) = Some url
        /\ status_after fetch k paper
           = "Downloaded (" ++ format_kb bytes ++ " KB)")
  \/ (exists url message,
        usable_url (Paper.pdf_url paper) = Some url
        /\ fetch k url (pdf_path (Paper.id paper)) = Raised message
        /\ status_after fetch k paper = "Failed: " ++ message).
Proof.
  unfold status_after.
  destruct (usable_url (Paper.pdf_url paper)) as [url|]; [|left; auto].
  right.
  destruct (fetch k url (pdf_path (Paper.id paper))) as [bytes | message]
    eqn:Hfetch.
  - left. exists url, bytes. auto.
  - right. exists url, message. auto.
Qed.

(** X7: once the download loop is over no paper is left with the status
    "Not downloaded", and a paper has the status "No PDF URL" exactly when
    its pdf_url is missing or empty. *)
Theorem every_status_is_overwritten (fetch : Fetcher)
    (papers : list PaperRecord) (paper' : PaperRecord) :
  In paper' (fst (download_all fetch papers)) ->
  Paper.download_status paper' <> "Not downloaded"
  /\ (Paper.download_status paper' = "No PDF URL"
      <-> usable_url (Paper.pdf_url paper') = None).
Proof.
  intros Hin. apply loop_in in Hin as [k [paper [_ ->]]].
  cbn [Paper.set_download_status Paper.download_status Paper.pdf_url].
  destruct (status_after_cases fetch k paper)
    as [[Hurl ->] | [[url [bytes [Hurl ->]]] | [url [message [Hurl [_ ->]]]]]];
    rewrite Hurl.
  - split; [discriminate | tauto].
  - split; [discriminate | split; discriminate].
  - split; [discriminate | split; discriminate].
Qed.

Lemma every_status_is_overwritten_witness :
  In (Paper.set_download_status (make_paper Sample.on_topic)
        "Downloaded (0.8 KB)")
     (fst (download_all Sample.storing Sample.found))
  /\ "Downloaded (0.8 KB)" <> "Not downloaded".
Proof.
  assert (Hin : In (Paper.set_download_status (make_paper Sample.on_topic)
                      "Downloaded (0.8 KB)")
                   (fst (download_all Sample.storing Sample.found))).
  { left. reflexivity. }
  split; [exact Hin|].
  exact (proj1 (every_status_is_overwritten Sample.storing Sample.found _
                  Hin)).
Defined.

(** The summary line that a report over a non-empty list writes. *)
Lemma report_summary_line (fetch : Fetcher) (query : string)
    (categories : list string) (start_year end_year : Z)
    (papers : list PaperRecord) :
  papers <> [] ->
  In (st_write
        ("**Summary**: "
         ++ str_of_nat (List.length (fst (download_all fetch papers)))
         ++ " papers found, "
         ++ str_of_nat (downloaded_count (fst (download_all fetch papers)))
         ++ " PDFs downloaded successfully."))
     (report fetch query categories start_year end_year papers).
Proof.
  intros Hne. destruct papers as [|paper rest]; [contradiction|].
  unfold report.
  destruct (download_all fetch (paper :: rest)) as [papers' log].
  cbn [fst].
  apply in_or_app. right. apply in_or_app. right. apply in_or_app. left.
  right; right; right; left. reflexivity.
Qed.

Lemma counted_iff_stored (fetch : Fetcher) (k : nat) (paper : PaperRecord) :
  (forall i url path message,
     fetch i url path = Raised message ->
     contains "Downloaded" message = false) ->
  contains "Downloaded" (status_after fetch k paper)
  = startswith "Downloaded (" (status_after fetch k paper).
Proof.
  intros Hclean.
  destruct (status_after_cases fetch k paper)
    as [[_ ->] | [[url [bytes [_ ->]]] | [url [message [_ [Hf ->]]]]]].
  - reflexivity.
  - reflexivity.
  - apply Hclean in Hf.
    change (contains "Downloaded" ("Failed: " ++ message))
      with (contains "Downloaded" message).
    rewrite Hf. reflexivity.
Qed.

(** X8: when no failure reason holds the text "Downloaded", the count of
    the summary is the number of papers whose file was stored, that is,
    whose status begins with "Downloaded (", and this is the number that
    the summary line of the report shows. *)
Theorem summary_count_is_exact (fetch : Fetcher) (query : string)
    (categories : list string) (start_year end_year : Z)
    (papers : list PaperRecord) :
  (forall i url path message,
     fetch i url path = Raised message ->
     contains "Downloaded" message = false) ->
  downloaded_count (fst (download_all fetch papers))
  = List.length
      (filter (fun p => startswith "Downloaded (" (Paper.download_status p))
              (fst (download_all fetch papers)))
  /\ (papers <> [] ->
      In (st_write
            ("**Summary**: "
             ++ str_of_nat (List.length (fst (download_all fetch papers)))
             ++ " papers found, "
             ++ str_of_nat
                  (List.length
                     (filter (fun p => startswith "Downloaded ("
                                         (Paper.download_status p))
                             (fst (download_all fetch papers))))
             ++ " PDFs downloaded successfully."))
         (report fetch query categories start_year end_year papers)).
Proof.
  intros Hclean.
  assert (Hcount :
    downloaded_count (fst (download_all fetch papers))
    = List.length
        (filter (fun p => startswith "Downloaded ("
                            (Paper.download_status p))
                (fst (download_all fetch papers)))).
  { rewrite downloaded_count_filter. f_equal.
    apply filter_ext_in. intros paper' Hin.
    apply loop_in in Hin as [k [paper [_ ->]]].
    apply counted_iff_stored, Hclean. }
  split; [exact Hcount|].
  intros Hne. rewrite <- Hcount. apply report_summary_line, Hne.
Qed.

Lemma summary_count_is_exact_witness :
  (forall (i : nat) (url path message : string),
     Sample.flaky i url path = Raised message ->
     contains "Downloaded" message = false)
  /\ nth_error (fst (download_all Sample.flaky Sample.found_two)) 0
     = Some (Paper.set_download_status (make_paper Sample.on_topic)
               "Failed: HTTP 404")
  /\ downloaded_count (fst (download_all Sample.flaky Sample.found_two))
     = 1%nat
  /\ In (st_write
           "**Summary**: 2 papers found, 1 PDFs downloaded successfully.")
        (report Sample.flaky Sample.query Sample.wanted 2015 2024
                Sample.found_two).
Proof.
  assert (Hclean : forall (i : nat) (url path message : string),
             Sample.flaky i url path = Raised message ->
             contains "Downloaded" message = false).
  { intros [|i] url path message H; simpl in H.
    - injection H as <-. reflexivity.
    - discriminate H. }
  assert (Hne : Sample.found_two <> []) by discriminate.
  split; [exact Hclean|]. split; [reflexivity|].
  destruct (summary_count_is_exact Sample.flaky Sample.query Sample.wanted
              2015 2024 Sample.found_two Hclean) as [Hcount Hline].
  split; [exact Hcount | exact (Hline Hne)].
Defined.

(** *** The table shown and the checks of the handler *)

(** X9: the table shown on screen has one row per paper, holding its id,
    title, year, categories, abstract and download status, in this order;
    the pdf_url of a paper is never part of it. *)
Theorem shown_table_has_six_fields (papers : list PaperRecord) :
  pd.rows (pd.select display_columns (pd.from_papers papers))
  = map (fun paper =>
           [pd.Str (Paper.id paper); pd.Str (Paper.title paper);
            pd.Int (Paper.year paper); pd.Str (Paper.categories paper);
            pd.Str (Paper.abstract paper);
            pd.Str (Paper.download_status paper)]) papers.
Proof.
  destruct papers as [|paper rest]; [reflexivity|].
  unfold pd.select. cbn [pd.from_papers pd.rows pd.columns].
  rewrite map_map. apply map_ext. intros p. reflexivity.
Qed.

(** X10: the handler reports the first check that fails, and only that
    one: the query message for a blank query whatever the other inputs,
    the category message for a proper query with no category, and the year
    message only when the query and the categories are in order. *)
Theorem validation_reports_first_failure (query : string)
    (categories : list string) (start_year end_year : Z) :
  (validate query categories start_year end_year
   = Some "Please enter a valid query."
   <-> all_chars isspace query = true)
  /\ (validate query categories start_year end_year
      = Some "Please select at least one category."
      <-> all_chars isspace query = false /\ categories = [])
  /\ (validate query categories start_year end_year
      = Some "Start year must be less than or equal to end year."
      <-> all_chars isspace query = false /\ categories <> []
          /\ (start_year > end_year)%Z).
Proof.
  unfold validate.
  destruct (truthy (strip query)) eqn:Hq; simpl.
  - assert (Hs : all_chars isspace query = false).
    { destruct (all_chars isspace query) eqn:Hall; [|reflexivity].
      apply strip_falsy in Hall. congruence. }
    rewrite Hs. destruct categories as [|cat cats].
    + repeat split; try discriminate; try tauto;
        intros [_ [H _]]; contradiction.
    + destruct (Z.gtb_spec start_year end_year) as [Hgt | Hle];
        repeat split; try discriminate; try lia;
        try (intros [_ H]; discriminate);
        intros [_ [_ H]]; lia.
  - apply strip_falsy in Hq. rewrite Hq.
    repeat split; try discriminate; intros [H _]; discriminate.
Qed.

(** *** What a whole run does *)

Lemma query_log_quiet (remote : arxiv.Remote) (query : string)
    (categories : list string) (max_results start_year end_year : Z) :
  retrievals (snd (query_arxiv remote query categories max_results
                               start_year end_year)) = []
  /\ existsb is_output
       (snd (query_arxiv remote query categories max_results start_year
                         end_year)) = false.
Proof.
  unfold query_arxiv. destruct (collect _ _ _ _ _ _); split; reflexivity.
Qed.

Lemma query_arxiv_count (remote : arxiv.Remote) (query : string)
    (categories : list string) (max_results start_year end_year : Z) :
  (1 <= max_results)%Z ->
  (List.length (fst (query_arxiv remote query categories max_results
                                 start_year end_year))
   <= Z.to_nat max_results)%nat.
Proof.
  intros Hmax. unfold query_arxiv.
  destruct (collect _ _ _ _ _ _) as [e | ps] eqn:Hloop; simpl; [lia|].
  assert (H : (Z.of_nat (List.length ps) <= max_results)%Z).
  { eapply collect_length; [|exact Hloop]. simpl. lia. }
  lia.
Qed.

Lemma report_retrievals (fetch : Fetcher) (query : string)
    (categories : list string) (start_year end_year : Z)
    (papers : list PaperRecord) :
  retrievals (report fetch query categories start_year end_year papers)
  = flat_map retrieval_of papers.
Proof.
  destruct papers as [|paper rest]; [reflexivity|].
  pose proof (loop_log_retrievals fetch (List.length (paper :: rest)) 0
                (paper :: rest)) as Hlog.
  unfold report. fold (download_all fetch (paper :: rest)) in Hlog.
  destruct (download_all fetch (paper :: rest)) as [papers' log].
  cbn [snd] in Hlog. rewrite !retrievals_app, Hlog.
  destruct (downloaded_count papers' <? List.length papers')%nat;
    cbn [retrievals app]; rewrite app_nil_r; reflexivity.
Qed.

Lemma on_search_retrievals (remote : arxiv.Remote) (fetch : Fetcher)
    (query : string) (categories : list string)
    (max_results start_year end_year : Z) :
  retrievals (on_search remote fetch query categories max_results
                        start_year end_year)
  = match validate query categories start_year end_year with
    | Some _ => []
    | None =>
        flat_map retrieval_of
          (fst (query_arxiv remote query categories max_results start_year
                            end_year))
    end.
Proof.
  unfold on_search.
  destruct (validate query categories start_year end_year); [reflexivity|].
  pose proof (query_log_quiet remote query categories max_results
                start_year end_year) as [Hquiet _].
  destruct (query_arxiv remote query categories max_results start_year
                        end_year) as [papers log].
  cbn [fst snd] in *.
  change (retrievals (st_spinner "Querying arXiv..."
                      :: log ++ report fetch query categories start_year
                                       end_year papers))
    with (retrievals (log ++ report fetch query categories start_year
                                    end_year papers)).
  rewrite retrievals_app, Hquiet, report_retrievals. reflexivity.
Qed.

Lemma flat_map_retrieval_length (papers : list PaperRecord) :
  (List.length (flat_map retrieval_of papers) <= List.length papers)%nat.
Proof.
  induction papers as [|paper rest IH]; [reflexivity|].
  cbn [flat_map]. rewrite length_app. unfold retrieval_of at 1.
  destruct (usable_url (Paper.pdf_url paper)); simpl; lia.
Qed.

Lemma usable_url_some (url : option string) (u : string) :
  usable_url url = Some u -> url = Some u /\ u <> EmptyString.
Proof.
  destruct url as [v|]; [|discriminate]. simpl.
  destruct v; simpl; [discriminate|].
  intros [= <-]. split; [reflexivity | discriminate].
Qed.

(** X11: a run never makes more retrievals than the requested maximum of
    papers, and none at all when a check of the handler fails. *)
Theorem run_retrieves_at_most_max_results (remote : arxiv.Remote)
    (fetch : Fetcher) (query : string) (categories : list string)
    (max_results start_year end_year : Z) :
  (1 <= max_results)%Z ->
  (List.length
     (retrievals (on_search remote fetch query categories max_results
                            start_year end_year))
   <= Z.to_nat max_results)%nat
  /\ (validate query categories start_year end_year <> None ->
      retrievals (on_search remote fetch query categories max_results
                            start_year end_year) = []).
Proof.
  intros Hmax. rewrite on_search_retrievals.
  destruct (validate query categories start_year end_year).
  - split; [simpl; lia | reflexivity].
  - split; [|intros H; contradiction].
    pose proof (flat_map_retrieval_length
                  (fst (query_arxiv remote query categories max_results
                                    start_year end_year))).
    pose proof (query_arxiv_count remote query categories max_results
                  start_year end_year Hmax).
    lia.
Qed.

Lemma run_retrieves_at_most_max_results_witness :
  (1 <= 2)%Z
  /\ (List.length
        (retrievals (on_search Sample.remote Sample.storing Sample.query
                               Sample.wanted 2 2015 2024))
      <= Z.to_nat 2)%nat.
Proof.
  assert (Hmax : (1 <= 2)%Z) by lia.
  split; [exact Hmax|].
  exact (proj1 (run_retrieves_at_most_max_results Sample.remote
                  Sample.storing Sample.query Sample.wanted 2 2015 2024
                  Hmax)).
Defined.

(** X12: every retrieval of a run is for a result of the remote listing
    that passed the filter: it fetches the non-empty pdf_url of that result
    into pdfs/<id>.pdf, with the id taken from its entry identifier. *)
Theorem run_retrieves_only_accepted_results (remote : arxiv.Remote)
    (fetch : Fetcher) (query : string) (categories : list string)
    (max_results start_year end_year : Z) (url path : string) :
  In (url, path)
     (retrievals (on_search remote fetch query categories max_results
                            start_year end_year)) ->
  exists result,
    In (arxiv.Yield result) (remote query)
    /\ accept categories start_year end_year result = true
    /\ arxiv.pdf_url result = Some url
    /\ url <> EmptyString
    /\ path = "pdfs/" ++ last_item (split "/" (arxiv.entry_id result))
              ++ ".pdf".
Proof.
  rewrite on_search_retrievals.
  destruct (validate query categories start_year end_year); [intros []|].
  intros Hin. apply in_flat_map in Hin as [paper [Hpaper Hret]].
  destruct (query_arxiv_fresh _ _ _ _ _ _ _ Hpaper) as [r [Hr [-> Hacc]]].
  unfold retrieval_of in Hret.
  destruct (usable_url (Paper.pdf_url (make_paper r))) as [u|] eqn:Hurl;
    [|contradiction].
  destruct Hret as [[= <- <-] | []].
  apply usable_url_some in Hurl as [Hurl Hne].
  exists r. repeat split; try assumption.
  apply (pdf_path_of_clean_id _ (id_has_no_slash (arxiv.entry_id r))).
Qed.

Lemma run_retrieves_only_accepted_results_witness :
  In ("http://arxiv.org/pdf/2301.00001v2", "pdfs/2301.00001v2.pdf")
     (retrievals (on_search Sample.remote Sample.storing Sample.query
                            Sample.wanted 2 2015 2024))
  /\ exists result,
       In (arxiv.Yield result) (Sample.remote Sample.query)
       /\ accept Sample.wanted 2015 2024 result = true
       /\ arxiv.pdf_url result = Some "http://arxiv.org/pdf/2301.00001v2"
       /\ "http://arxiv.org/pdf/2301.00001v2" <> EmptyString
       /\ "pdfs/2301.00001v2.pdf"
          = "pdfs/" ++ last_item (split "/" (arxiv.entry_id result))
            ++ ".pdf".
Proof.
  assert (Hin : In ("http://arxiv.org/pdf/2301.00001v2",
                    "pdfs/2301.00001v2.pdf")
                   (retrievals (on_search Sample.remote Sample.storing
                                  Sample.query Sample.wanted 2 2015 2024))).
  { vm_compute. left. reflexivity. }
  split; [exact Hin|].
  exact (run_retrieves_only_accepted_results Sample.remote Sample.storing
           Sample.query Sample.wanted 2 2015 2024 _ _ Hin).
Defined.

(** X13: when the checks pass and the search hands back no paper, the run
    shows the no-papers warning with the suggestions and stops there: no
    retrieval, no table, no export. *)
Theorem empty_search_stops_the_run (remote : arxiv.Remote)
    (fetch : Fetcher) (query : string) (categories : list string)
    (max_results start_year end_year : Z) :
  validate query categories start_year end_year = None ->
  fst (query_arxiv remote query categories max_results start_year end_year)
  = [] ->
  on_search remote fetch query categories max_results start_year end_year
  = (st_spinner "Querying arXiv..."
     :: snd (query_arxiv remote query categories max_results start_year
                         end_year)
     ++ [st_warning "No papers found matching your criteria.";
         st_markdown suggestions])%list
  /\ retrievals (on_search remote fetch query categories max_results
                           start_year end_year) = []
  /\ existsb is_output
       (on_search remote fetch query categories max_results start_year
                  end_year) = false.
Proof.
  intros Hvalid Hempty.
  pose proof (query_log_quiet remote query categories max_results
                start_year end_year) as [_ Hquiet].
  rewrite on_search_retrievals, Hvalid, Hempty.
  unfold on_search. rewrite Hvalid.
  destruct (query_arxiv remote query categories max_results start_year
                        end_year) as [papers log].
  cbn [fst snd] in *. subst papers.
  split; [reflexivity|]. split; [reflexivity|].
  cbn [existsb is_output orb report]. rewrite existsb_app, Hquiet.
  reflexivity.
Qed.

Lemma empty_search_stops_the_run_witness :
  validate Sample.query Sample.wanted 2015 2024 = None
  /\ fst (query_arxiv Sample.remote Sample.query Sample.wanted 1 2015 2024)
     = []
  /\ retrievals (on_search Sample.remote Sample.storing Sample.query
                           Sample.wanted 1 2015 2024) = [].
Proof.
  assert (Hvalid : validate Sample.query Sample.wanted 2015 2024 = None)
    by reflexivity.
  assert (Hempty : fst (query_arxiv Sample.remote Sample.query Sample.wanted
                                    1 2015 2024) = [])
    by reflexivity.
  split; [exact Hvalid|]. split; [exact Hempty|].
  exact (proj1 (proj2 (empty_search_stops_the_run Sample.remote
                         Sample.storing Sample.query Sample.wanted 1 2015
                         2024 Hvalid Hempty))).
Defined.

Lemma downloaded_count_short (papers : list PaperRecord) :
  (downloaded_count papers < List.length papers)%nat
  <-> exists paper,
        In paper papers
        /\ contains "Downloaded" (Paper.download_status paper) = false.
Proof.
  pose proof (downloaded_count_filter papers) as Hcount.
  assert (Hle : forall l, (downloaded_count l <= List.length l)%nat).
  { intros l. induction l as [|p l IH]; simpl; [lia|].
    destruct (contains "Downloaded" (Paper.download_status p)); lia. }
  clear Hcount. induction papers as [|p rest IH]; simpl.
  - split; [lia | intros [paper [[] _]]].
  - destruct (contains "Downloaded" (Paper.download_status p)) eqn:Hp.
    + split.
      * intros Hlt. destruct IH as [IH _].
        destruct IH as [paper [Hin Hc]]; [lia|].
        exists paper. auto.
      * intros [paper [[<- | Hin] Hc]]; [congruence|].
        destruct IH as [_ IH]. specialize (IH (ex_intro _ paper (conj Hin Hc))).
        lia.
    + split.
      * intros _. exists p. auto.
      * intros _. specialize (Hle rest). lia.
Qed.

Lemma not_in_quiet_log (f : effect -> bool) (log : list effect)
    (e : effect) :
  existsb f log = false -> f e = true -> ~ In e log.
Proof.
  intros Hquiet He Hin.
  assert (H : existsb f log = true).
  { apply existsb_exists. exists e. auto. }
  congruence.
Qed.

(** X14: the warning that some PDFs failed is shown exactly when some
    paper ends with a status that does not hold the text "Downloaded"; a
    paper that has no usable pdf_url is therefore always reported as a
    failed download. *)
Theorem failure_warning_is_shown (fetch : Fetcher) (query : string)
    (categories : list string) (start_year end_year : Z)
    (papers : list PaperRecord) :
  (In (st_warning
         "Some PDFs failed to download. Check 'download_status' for details.")
      (report fetch query categories start_year end_year papers)
   <-> exists paper',
         In paper' (fst (download_all fetch papers))
         /\ contains "Downloaded" (Paper.download_status paper') = false)
  /\ ((exists paper,
         In paper papers /\ usable_url (Paper.pdf_url paper) = None) ->
      In (st_warning
            "Some PDFs failed to download. Check 'download_status' for details.")
         (report fetch query categories start_year end_year papers)).
Proof.
  assert (Hiff :
    In (st_warning
          "Some PDFs failed to download. Check 'download_status' for details.")
       (report fetch query categories start_year end_year papers)
    <-> exists paper',
          In paper' (fst (download_all fetch papers))
          /\ contains "Downloaded" (Paper.download_status paper') = false).
  { destruct papers as [|paper rest].
    - simpl. split.
      + intros [H | [H | []]]; discriminate.
      + intros [paper' [[] _]].
    - rewrite <- downloaded_count_short.
      pose proof (loop_log_quiet fetch (List.length (paper :: rest)) 0
                    (paper :: rest)) as [Hquiet _].
      unfold report. fold (download_all fetch (paper :: rest)) in Hquiet.
      destruct (download_all fetch (paper :: rest)) as [papers' log].
      cbn [fst snd] in *. rewrite !in_app_iff.
      destruct (Nat.ltb_spec (downloaded_count papers')
                             (List.length papers')) as [Hlt | Hge].
      + split; [intros _; exact Hlt|].
        intros _. right; right; right. left. reflexivity.
      + split; [|lia].
        intros [Hpre | [Hlog | [Hmid | []]]].
        * simpl in Hpre.
          destruct Hpre as [H | [H | [H | [H | []]]]]; discriminate.
        * exfalso. revert Hlog. apply (not_in_quiet_log is_warning);
            [exact Hquiet | reflexivity].
        * simpl in Hmid.
          destruct Hmid as [H | [H | [H | [H | []]]]]; discriminate. }
  split; [exact Hiff|].
  intros [paper [Hin Hurl]]. apply Hiff.
  apply In_nth_error in Hin as [k Hk].
  exists (Paper.set_download_status paper "No PDF URL"). split.
  - apply (nth_error_In _ k). unfold download_all.
    rewrite loop_nth, Hk. simpl. unfold status_after. rewrite Hurl.
    reflexivity.
  - reflexivity.
Qed.

(** *** The collection loop on its own *)

Section BareLoop.

Variable categories : list string.
Variables max_results start_year end_year : Z.

Lemma collect_stops_when_full (rs : list arxiv.Result)
    (tail : list arxiv.pull) (papers : list PaperRecord) :
  (Z.of_nat (List.length papers) < max_results)%Z ->
  (Z.to_nat max_results - List.length papers
   <= List.length (filter (accept categories start_year end_year) rs))%nat ->
  collect categories max_results start_year end_year
          (map arxiv.Yield rs ++ tail)%list papers
  = inr (papers
         ++ map make_paper
              (firstn (Z.to_nat max_results - List.length papers)
                 (filter (accept categories start_year end_year) rs)))%list.
Proof.
  revert papers. induction rs as [|r rs IH]; intros papers Hroom Hfull.
  - simpl in Hfull. lia.
  - cbn [map app collect filter] in *.
    destruct (accept categories start_year end_year r) eqn:Hacc.
    + cbn [List.length] in Hfull.
      destruct (Z.of_nat (List.length (papers ++ [make_paper r])%list)
                >=? max_results)%Z eqn:Hbrk;
        rewrite length_app in Hbrk; cbn [List.length] in Hbrk.
      * rewrite Z.geb_leb in Hbrk. apply Z.leb_le in Hbrk.
        replace (Z.to_nat max_results - List.length papers)%nat
          with 1%nat by lia.
        reflexivity.
      * rewrite Z.geb_leb in Hbrk. apply Z.leb_gt in Hbrk.
        rewrite IH; rewrite ?length_app; cbn [List.length]; try lia.
        replace (Z.to_nat max_results - List.length papers)%nat
          with (S (Z.to_nat max_results - (List.length papers + 1)))%nat
          by lia.
        cbn [firstn map]. rewrite <- app_assoc. reflexivity.
    + destruct (Z.of_nat (List.length papers) >=? max_results)%Z eqn:Hbrk.
      * rewrite Z.geb_leb in Hbrk. apply Z.leb_le in Hbrk. lia.
      * apply IH; assumption.
Qed.

Lemma collect_first_matches (rs : list arxiv.Result)
    (papers : list PaperRecord) :
  (Z.of_nat (List.length papers) < max_results)%Z ->
  collect categories max_results start_year end_year
          (map arxiv.Yield rs) papers
  = inr (papers
         ++ map make_paper
              (firstn (Z.to_nat max_results - List.length papers)
                 (filter (accept categories start_year end_year) rs)))%list.
Proof.
  revert papers. induction rs as [|r rs IH]; intros papers Hroom.
  - simpl. rewrite firstn_nil, app_nil_r. reflexivity.
  - cbn [map collect filter].
    destruct (accept categories start_year end_year r) eqn:Hacc.
    + destruct (Z.of_nat (List.length (papers ++ [make_paper r])%list)
                >=? max_results)%Z eqn:Hbrk;
        rewrite length_app in Hbrk; cbn [List.length] in Hbrk.
      * rewrite Z.geb_leb in Hbrk. apply Z.leb_le in Hbrk.
        replace (Z.to_nat max_results - List.length papers)%nat
          with 1%nat by lia.
        reflexivity.
      * rewrite Z.geb_leb in Hbrk. apply Z.leb_gt in Hbrk.
        rewrite IH; rewrite ?length_app; cbn [List.length]; try lia.
        replace (Z.to_nat max_results - List.length papers)%nat
          with (S (Z.to_nat max_results - (List.length papers + 1)))%nat
          by lia.
        cbn [firstn map]. rewrite <- app_assoc. reflexivity.
    + destruct (Z.of_nat (List.length papers) >=? max_results)%Z eqn:Hbrk.
      * rewrite Z.geb_leb in Hbrk. apply Z.leb_le in Hbrk. lia.
      * apply IH; assumption.
Qed.

End BareLoop.

(** X15: the collection loop by itself, fed by any generator that raises
    nothing, returns the first [max_results] results that pass the filter,
    in order; and once it holds that many it pulls nothing more, so that
    whatever the generator would do next, an exception included, has no
    effect. *)
Theorem loop_keeps_first_matches (categories : list string)
    (max_results start_year end_year : Z) (rs : list arxiv.Result) :
  (1 <= max_results)%Z ->
  collect categories max_results start_year end_year
          (map arxiv.Yield rs) []
  = inr (map make_paper
           (firstn (Z.to_nat max_results)
              (filter (accept categories start_year end_year) rs)))
  /\ ((Z.to_nat max_results
       <= List.length (filter (accept categories start_year end_year) rs))%nat
      -> forall tail,
           collect categories max_results start_year end_year
                   (map arxiv.Yield rs ++ tail)%list []
           = inr (map make_paper
                    (firstn (Z.to_nat max_results)
                       (filter (accept categories start_year end_year)
                               rs)))).
Proof.
  intros Hmax. split.
  - rewrite collect_first_matches by (simpl; lia).
    simpl. rewrite Nat.sub_0_r. reflexivity.
  - intros Hfull tail.
    rewrite collect_stops_when_full by (simpl; lia).
    simpl. rewrite Nat.sub_0_r. reflexivity.
Qed.

Lemma loop_keeps_first_matches_witness :
  (1 <= 1)%Z
  /\ collect Sample.wanted 1 2015 2024
             (map arxiv.Yield [Sample.off_topic; Sample.on_topic]
              ++ [arxiv.Raise "HTTP 503"])%list []
     = inr [make_paper Sample.on_topic].
Proof.
  assert (Hmax : (1 <= 1)%Z) by lia.
  split; [exact Hmax|].
  refine (proj2 (loop_keeps_first_matches Sample.wanted 1 2015 2024
                   [Sample.off_topic; Sample.on_topic] Hmax) _ _).
  vm_compute. lia.
Defined.

(** *** Start-up and the sidebar *)

Lemma query_error_means_blank (query : string) (categories : list string)
    (start_year end_year : Z) :
  validate query categories start_year end_year
  = Some "Please enter a valid query." ->
  truthy (strip query) = false.
Proof.
  unfold validate. destruct (truthy (strip query)); [|reflexivity].
  destruct categories; [discriminate|].
  destruct (start_year >? end_year)%Z; discriminate.
Qed.

(** X17: the default query and the four suggested queries always pass the
    query check: the message asking for a valid query can only come from a
    custom query that is empty or all white space. *)
Theorem only_custom_query_can_be_blank (query_option : QueryOption)
    (text_input selected : string) (categories : list string)
    (start_year end_year : Z) :
  In selected suggested_queries ->
  validate (fst (sidebar_query query_option text_input selected))
           categories start_year end_year
  = Some "Please enter a valid query." ->
  query_option = CustomQuery /\ all_chars isspace text_input = true.
Proof.
  intros Hsel Herr. apply query_error_means_blank in Herr.
  destruct query_option; cbn [sidebar_query fst] in Herr.
  - discriminate Herr.
  - split; [reflexivity | apply strip_falsy, Herr].
  - simpl in Hsel.
    destruct Hsel as [<- | [<- | [<- | [<- | []]]]]; discriminate Herr.
Qed.

Lemma only_custom_query_can_be_blank_witness :
  In "Al-Cu dissimilar welding" suggested_queries
  /\ validate (fst (sidebar_query CustomQuery "   "
                                  "Al-Cu dissimilar welding"))
              Sample.wanted 2015 2024
     = Some "Please enter a valid query."
  /\ CustomQuery = CustomQuery /\ all_chars isspace "   " = true.
Proof.
  assert (Hsel : In "Al-Cu dissimilar welding" suggested_queries).
  { right; left; reflexivity. }
  assert (Herr : validate (fst (sidebar_query CustomQuery "   "
                                              "Al-Cu dissimilar welding"))
                          Sample.wanted 2015 2024
                 = Some "Please enter a valid query.")
    by reflexivity.
  split; [exact Hsel|]. split; [exact Herr|].
  exact (only_custom_query_can_be_blank CustomQuery "   "
           "Al-Cu dissimilar welding" Sample.wanted 2015 2024 Hsel Herr).
Defined.

(** *** The count of the summary *)

(** C10: the summary line of the report shows the number of papers whose
    status, after the downloads, contains the text "Downloaded" at any
    position.  A paper whose retrieval fails with a reason that holds this
    text gets a status that begins with "Failed: ", not with
    "Downloaded (", and is counted all the same; with the reason
    "Downloaded file is corrupt" a run over one paper reports one
    successful download although no file was stored. *)
Theorem summary_counts_substring_matches (fetch : Fetcher) (query : string)
    (categories : list string) (start_year end_year : Z)
    (papers : list PaperRecord) :
  papers <> [] ->
  In (st_write
        ("**Summary**: "
         ++ str_of_nat (List.length (fst (download_all fetch papers)))
         ++ " papers found, "
         ++ str_of_nat
              (List.length
                 (filter (fun p => contains "Downloaded"
                                            (Paper.download_status p))
                         (fst (download_all fetch papers))))
         ++ " PDFs downloaded successfully."))
     (report fetch query categories start_year end_year papers)
  /\ (forall s,
        contains "Downloaded" s = true
        <-> exists pre post, s = pre ++ "Downloaded" ++ post)
  /\ (forall k paper url reason,
        nth_error papers k = Some paper ->
        usable_url (Paper.pdf_url paper) = Some url ->
        fetch k url (pdf_path (Paper.id paper)) = Raised reason ->
        contains "Downloaded" reason = true ->
        exists paper',
          nth_error (fst (download_all fetch papers)) k = Some paper'
          /\ Paper.download_status paper' = "Failed: " ++ reason
          /\ startswith "Downloaded (" (Paper.download_status paper') = false
          /\ contains "Downloaded" (Paper.download_status paper') = true)
  /\ (exists reason,
        contains "Downloaded" reason = true
        /\ List.length
             (filter (fun p => startswith "Downloaded ("
                                 (Paper.download_status p))
                     (fst (download_all (fun _ _ _ => Raised reason)
                                        Sample.found))) = 0%nat
        /\ In (st_write
                 "**Summary**: 1 papers found, 1 PDFs downloaded successfully.")
              (report (fun _ _ _ => Raised reason) Sample.query
                      Sample.wanted 2015 2024 Sample.found)).
Proof.
  intros Hne. split.
  { rewrite <- downloaded_count_filter. apply report_summary_line, Hne. }
  split; [intros s; apply contains_spec|]. split.
  - intros k paper url reason Hk Hurl Hfetch Hreason.
    exists (Paper.set_download_status paper ("Failed: " ++ reason)).
    split.
    + unfold download_all. rewrite loop_nth, Hk. simpl.
      unfold status_after. rewrite Hurl, Hfetch. reflexivity.
    + cbn [Paper.set_download_status Paper.download_status].
      split; [reflexivity|]. split; [reflexivity|].
      change (contains "Downloaded" ("Failed: " ++ reason))
        with (contains "Downloaded" reason).
      exact Hreason.
  - exists "Downloaded file is corrupt".
    split; [reflexivity|]. split; [reflexivity|].
    vm_compute. tauto.
Qed.

Lemma summary_counts_substring_matches_witness :
  Sample.found <> []
  /\ nth_error (fst (download_all Sample.failing Sample.found)) 0
     = Some (Paper.set_download_status (make_paper Sample.on_topic)
               "Failed: Downloaded file is corrupt")
  /\ In (st_write
           "**Summary**: 1 papers found, 1 PDFs downloaded successfully.")
        (report Sample.failing Sample.query Sample.wanted 2015 2024
                Sample.found).
Proof.
  assert (Hne : Sample.found <> []) by discriminate.
  split; [exact Hne|]. split; [reflexivity|].
  exact (proj1 (summary_counts_substring_matches Sample.failing
                  Sample.query Sample.wanted 2015 2024 Sample.found Hne)).
Defined.

(** *** Start-up *)

Lemma lookup_other (name other : string) (e : entry)
    (es : list (string * entry)) :
  name <> other -> lookup name ((other, e) :: es) = lookup name es.
Proof.
  intros Hne. simpl. destruct (String.eqb_spec other name); [|reflexivity].
  congruence.
Qed.

(** X16: when the start-up step does not end the script, the name pdfs
    exists afterwards, as a directory unless a regular file of that name
    was already there, in which case nothing is created and the run goes
    on without a directory; no other name of the disk is touched, running
    the step again changes nothing and shows nothing, and the creation
    message is shown exactly when the name did not exist.  The step ends
    the script with the exception of [os.makedirs] exactly when the name
    is held by a link without target or the directory cannot be
    created. *)
Theorem pdf_dir_is_created_once (disk : Disk) :
  (forall disk' log,
     ensure_pdf_dir disk = inr (disk', log) ->
     path_exists disk' pdf_dir = true
     /\ (isdir disk' pdf_dir = true
         \/ lookup pdf_dir (entries disk) = Some RegularFile)
     /\ (forall name,
           name <> pdf_dir ->
           lookup name (entries disk') = lookup name (entries disk))
     /\ ensure_pdf_dir disk' = inr (disk', [])
     /\ (path_exists disk pdf_dir = false ->
         log = [st_info "Created directory: pdfs for storing PDFs."])
     /\ (path_exists disk pdf_dir = true -> log = [] /\ disk' = disk))
  /\ (lookup pdf_dir (entries disk) = Some RegularFile ->
      ensure_pdf_dir disk = inr (disk, []) /\ isdir disk pdf_dir = false)
  /\ (forall e,
        ensure_pdf_dir disk = inl e
        <-> (lookup pdf_dir (entries disk) = Some DanglingLink
             /\ e = FileExistsError)
            \/ (lookup pdf_dir (entries disk) = None
                /\ creatable disk = false /\ e = PermissionError)).
Proof.
  unfold ensure_pdf_dir, makedirs, path_exists, isdir.
  destruct (lookup pdf_dir (entries disk)) as [[| |]|] eqn:Hlook;
    cbn [negb].
  - split; [|split].
    + intros disk' log [= <- <-]. rewrite Hlook. cbn [negb].
      repeat split; auto; discriminate.
    + discriminate.
    + intros e. split; [discriminate|].
      intros [[H _] | [H _]]; discriminate.
  - split; [|split].
    + intros disk' log [= <- <-]. rewrite Hlook. cbn [negb].
      repeat split; auto; discriminate.
    + intros _. split; reflexivity.
    + intros e. split; [discriminate|].
      intros [[H _] | [H _]]; discriminate.
  - split; [|split].
    + intros disk' log H. discriminate H.
    + discriminate.
    + intros e. split.
      * intros [= <-]. left. auto.
      * intros [[_ ->] | [H _]]; [reflexivity | discriminate].
  - destruct (creatable disk) eqn:Hcan.
    + split; [|split].
      * intros disk' log [= <- <-]. cbn [entries].
        assert (Hnew : lookup pdf_dir ((pdf_dir, Directory) :: entries disk)
                       = Some Directory) by reflexivity.
        rewrite Hnew. cbn [negb].
        split; [reflexivity|]. split; [left; reflexivity|].
        split; [intros name Hne; apply lookup_other, Hne|].
        split; [reflexivity|]. split; [reflexivity | discriminate].
      * discriminate.
      * intros e. split; [discriminate|].
        intros [[H _] | [_ [H _]]]; discriminate.
    + split; [|split].
      * intros disk' log H. discriminate H.
      * discriminate.
      * intros e. split.
        -- intros [= <-]. right. auto.
        -- intros [[H _] | [_ [_ ->]]]; [discriminate | reflexivity].
Qed.
